(** * FinExports: the transcript splitter and the collection pipeline

    A shallow embedding of [fetch_fin_escalations.py]: the text normalizer
    [strip_html], the hand-off detector [first_assignment], the transcript
    splitter [split] and the deduplicating accumulator [ingest], followed by
    the properties the specification states about them.

    Python values are the values [json.loads] builds: [None], booleans,
    integers, strings, lists and dictionaries keyed by strings.  Numbers with
    a fractional part are outside the model.  A Python [str] is a sequence of
    Unicode code points.  A computation that can raise returns a [result].

    The functions of the standard library that [strip_html] calls are
    embedded from their sources: [re.sub] for the one pattern [TAG_RE],
    [html.unescape] and [str.strip].  The table [html.entities.html5] and
    the interpreter's cap on decimal literals are parameters.  The HTTP
    requests are parameters as well: [fetch_full] is a function of the state
    of the helpdesk, and a search is given by the list of summaries it
    yields; [run_search_from] embeds the generator [run_search] itself, over
    a parameter for the search request.  The CSV files are embedded as the
    text written to them, and the delivery as the names and comments of its
    uploads. *)

From Stdlib Require Import String Ascii List ZArith NArith Bool Lia.
Import ListNotations.

Set Warnings "-register-all".

(** ** Strings *)

Definition str : Type := list N.

(** An ASCII literal of the source, as a Python string. *)
Definition ustr (s : string) : str :=
  map N_of_ascii (list_ascii_of_string s).

Arguments ustr s%_string.

Definition str_eqb (s t : str) : bool :=
  if list_eq_dec N.eq_dec s t then true else false.

(** Lexicographic [s >= t] on code points. *)
Fixpoint str_geb (s t : str) : bool :=
  match s, t with
  | _, [] => true
  | [], _ :: _ => false
  | c :: s', d :: t' =>
      if N.eqb c d then str_geb s' t' else N.ltb d c
  end.

(** [needle in hay] for two strings. *)
Fixpoint str_prefixb (p s : str) : bool :=
  match p, s with
  | [], _ => true
  | _ :: _, [] => false
  | c :: p', d :: s' => N.eqb c d && str_prefixb p' s'
  end.

Fixpoint str_containsb (needle hay : str) : bool :=
  str_prefixb needle hay ||
  match hay with
  | [] => false
  | _ :: hay' => str_containsb needle hay'
  end.

(** [sep.join(lines)] *)
Fixpoint join (sep : str) (lines : list str) : str :=
  match lines with
  | [] => []
  | [l] => l
  | l :: ls => l ++ sep ++ join sep ls
  end.

(** ** Exceptions *)

Inductive exn : Set :=
| AttributeError
| KeyError
| TypeError
| ValueError
| OverflowError
| OSError
| RequestException.

Inductive result (A : Type) : Type :=
| Ok (a : A)
| Raise (e : exn).

Arguments Ok {A} a.
Arguments Raise {A} e.

Definition bind {A B : Type} (r : result A) (k : A -> result B) : result B :=
  match r with
  | Ok a => k a
  | Raise e => Raise e
  end.

Notation "x <- r ;; k" := (bind r (fun x => k))
  (at level 61, r at next level, right associativity).

(** ** Python values *)

Inductive pyval : Type :=
| PNone
| PBool (b : bool)
| PInt (z : Z)
| PStr (s : str)
| PList (l : list pyval)
| PDict (d : list (str * pyval)).

(** A dictionary is the list of its items in insertion order; a key is read
    at its first binding. *)
Fixpoint lookup (k : str) (d : list (str * pyval)) : option pyval :=
  match d with
  | [] => None
  | (k', v) :: d' => if str_eqb k k' then Some v else lookup k d'
  end.

(** [bool(v)] *)
Definition truthy (v : pyval) : bool :=
  match v with
  | PNone => false
  | PBool b => b
  | PInt z => negb (Z.eqb z 0)
  | PStr s => match s with [] => false | _ => true end
  | PList l => match l with [] => false | _ => true end
  | PDict d => match d with [] => false | _ => true end
  end.

(** [x or y], with [y] already evaluated to a result. *)
Definition py_or (x : pyval) (y : result pyval) : result pyval :=
  if truthy x then Ok x else y.

(** [bool] is a subclass of [int]. *)
Definition as_int (v : pyval) : option Z :=
  match v with
  | PBool true => Some 1%Z
  | PBool false => Some 0%Z
  | PInt z => Some z
  | _ => None
  end.

(** [a == b] *)
Fixpoint py_eq (a b : pyval) : bool :=
  match a, b with
  | PNone, PNone => true
  | PStr s, PStr t => str_eqb s t
  | PList l, PList m =>
      (fix all2 (l : list pyval) (m : list pyval) {struct l} : bool :=
         match l, m with
         | [], [] => true
         | x :: l', y :: m' => py_eq x y && all2 l' m'
         | _, _ => false
         end) l m
  | PDict d, PDict e =>
      Nat.eqb (length d) (length e) &&
      (fix sub (d : list (str * pyval)) {struct d} : bool :=
         match d with
         | [] => true
         | (k, v) :: d' =>
             match lookup k e with
             | Some w => py_eq v w && sub d'
             | None => false
             end
         end) d
  | _, _ =>
      match as_int a, as_int b with
      | Some x, Some y => Z.eqb x y
      | _, _ => false
      end
  end.

(** [a >= b]; ordering is defined between numbers, between strings and
    between lists, and raises [TypeError] otherwise. *)
Fixpoint py_ge (a b : pyval) : result bool :=
  match a, b with
  | PStr s, PStr t => Ok (str_geb s t)
  | PList l, PList m =>
      (fix cmp (l : list pyval) (m : list pyval) {struct l} : result bool :=
         match l, m with
         | _, [] => Ok true
         | [], _ :: _ => Ok false
         | x :: l', y :: m' => if py_eq x y then cmp l' m' else py_ge x y
         end) l m
  | _, _ =>
      match as_int a, as_int b with
      | Some x, Some y => Ok (Z.leb y x)
      | _, _ => Raise TypeError
      end
  end.

(** Lists and dictionaries cannot be hashed. *)
Definition hashable (v : pyval) : bool :=
  match v with
  | PList _ | PDict _ => false
  | _ => true
  end.

(** [v.get(k, dflt)]; only dictionaries have the method. *)
Definition py_get (v : pyval) (k : str) (dflt : pyval) : result pyval :=
  match v with
  | PDict d =>
      match lookup k d with
      | Some x => Ok x
      | None => Ok dflt
      end
  | _ => Raise AttributeError
  end.

(** [v[k]] for a string [k]. *)
Definition py_getitem (v : pyval) (k : str) : result pyval :=
  match v with
  | PDict d =>
      match lookup k d with
      | Some x => Ok x
      | None => Raise KeyError
      end
  | _ => Raise TypeError
  end.

(** [k in v] for a string [k]. *)
Definition py_contains (v : pyval) (k : str) : result bool :=
  match v with
  | PDict d => Ok (match lookup k d with Some _ => true | None => false end)
  | PList l => Ok (existsb (py_eq (PStr k)) l)
  | PStr s => Ok (str_containsb k s)
  | _ => Raise TypeError
  end.

(** [v in {k1, k2, ...}] for a set of strings; the left operand is hashed. *)
Definition py_in_strset (v : pyval) (ks : list str) : result bool :=
  if hashable v then
    Ok (match v with PStr s => existsb (str_eqb s) ks | _ => false end)
  else Raise TypeError.

(** [v in seen] for a set of hashable values. *)
Definition py_in_set (v : pyval) (seen : list pyval) : result bool :=
  if hashable v then Ok (existsb (py_eq v) seen) else Raise TypeError.

(** The items [lst += v] appends. *)
Definition py_iter (v : pyval) : result (list pyval) :=
  match v with
  | PList l => Ok l
  | PStr s => Ok (map (fun c => PStr [c]) s)
  | PDict d => Ok (map (fun kv => PStr (fst kv)) d)
  | _ => Raise TypeError
  end.

(** ** The text normalizer *)

Local Open Scope N_scope.

Definition LT : N := 60.
Definition GT : N := 62.
Definition AMP : N := 38.
Definition HASH : N := 35.
Definition SEMI : N := 59.

(** *** [TAG_RE.sub("", t)] with [TAG_RE = <[^>]+>] *)

(** [tag_close s]: the length of the shortest prefix of [s] that ends in
    ['>'], if there is one. *)
Fixpoint tag_close (s : str) : option nat :=
  match s with
  | [] => None
  | c :: r => if N.eqb c GT then Some 1%nat else option_map S (tag_close r)
  end.

(** [tag_match s]: for the text [s] that follows a ['<'], the number of
    characters the match of [[^>]+>] takes. *)
Definition tag_match (s : str) : option nat :=
  match s with
  | [] => None
  | c :: r => if N.eqb c GT then None else option_map S (tag_close r)
  end.

(** The scan of [re.sub]: leftmost matches, none overlapping; [skip] counts
    the characters of the current match still to drop. *)
Fixpoint tag_sub_from (skip : nat) (s : str) : str :=
  match s with
  | [] => []
  | c :: r =>
      match skip with
      | S k => tag_sub_from k r
      | O =>
          if N.eqb c LT then
            match tag_match r with
            | Some n => tag_sub_from n r
            | None => c :: tag_sub_from O r
            end
          else c :: tag_sub_from O r
      end
  end.

Definition tag_sub (s : str) : str := tag_sub_from O s.

(** *** [str.strip()] *)

(** [str.isspace] of one character. *)
Definition isspace (c : N) : bool :=
  ((9 <=? c) && (c <=? 13)) || ((28 <=? c) && (c <=? 32)) ||
  (c =? 133) || (c =? 160) || (c =? 5760) ||
  ((8192 <=? c) && (c <=? 8202)) ||
  (c =? 8232) || (c =? 8233) || (c =? 8239) || (c =? 8287) || (c =? 12288).

Fixpoint lstrip (s : str) : str :=
  match s with
  | [] => []
  | c :: r => if isspace c then lstrip r else s
  end.

Definition rstrip (s : str) : str := rev (lstrip (rev s)).

Definition strip (s : str) : str := rstrip (lstrip s).

(** *** [html.unescape] *)

Definition invalid_charrefs : list (N * N) :=
  [ (0x00, 0xfffd); (0x0d, 0x0d); (0x80, 0x20ac); (0x81, 0x81);
    (0x82, 0x201a); (0x83, 0x0192); (0x84, 0x201e); (0x85, 0x2026);
    (0x86, 0x2020); (0x87, 0x2021); (0x88, 0x02c6); (0x89, 0x2030);
    (0x8a, 0x0160); (0x8b, 0x2039); (0x8c, 0x0152); (0x8d, 0x8d);
    (0x8e, 0x017d); (0x8f, 0x8f); (0x90, 0x90); (0x91, 0x2018);
    (0x92, 0x2019); (0x93, 0x201c); (0x94, 0x201d); (0x95, 0x2022);
    (0x96, 0x2013); (0x97, 0x2014); (0x98, 0x02dc); (0x99, 0x2122);
    (0x9a, 0x0161); (0x9b, 0x203a); (0x9c, 0x0153); (0x9d, 0x9d);
    (0x9e, 0x017e); (0x9f, 0x0178) ]%N.

Fixpoint assoc_N (n : N) (l : list (N * N)) : option N :=
  match l with
  | [] => None
  | (k, v) :: l' => if N.eqb n k then Some v else assoc_N n l'
  end.

Definition invalid_codepoints (n : N) : bool :=
  ((0x1 <=? n) && (n <=? 0x8)) ||
  ((0xe <=? n) && (n <=? 0x1f)) ||
  ((0x7f <=? n) && (n <=? 0x9f)) ||
  ((0xfdd0 <=? n) && (n <=? 0xfdef)) ||
  existsb (N.eqb n)
    [ 0xb; 0xfffe; 0xffff; 0x1fffe; 0x1ffff; 0x2fffe; 0x2ffff; 0x3fffe;
      0x3ffff; 0x4fffe; 0x4ffff; 0x5fffe; 0x5ffff; 0x6fffe; 0x6ffff;
      0x7fffe; 0x7ffff; 0x8fffe; 0x8ffff; 0x9fffe; 0x9ffff; 0xafffe;
      0xaffff; 0xbfffe; 0xbffff; 0xcfffe; 0xcffff; 0xdfffe; 0xdffff;
      0xefffe; 0xeffff; 0xffffe; 0xfffff; 0x10fffe; 0x10ffff ].

Definition is_digit (c : N) : bool := (48 <=? c) && (c <=? 57).

Definition is_hexdigit (c : N) : bool :=
  is_digit c || ((97 <=? c) && (c <=? 102)) || ((65 <=? c) && (c <=? 70)).

Definition is_xX (c : N) : bool := (c =? 120) || (c =? 88).

(** The class [[^\t\n\f <&#;]] of the characters of a name. *)
Definition is_namechar (c : N) : bool :=
  negb ((c =? 9) || (c =? 10) || (c =? 12) || (c =? 32) ||
        (c =? LT) || (c =? AMP) || (c =? HASH) || (c =? SEMI)).

Fixpoint take_while (f : N -> bool) (s : str) : str :=
  match s with
  | [] => []
  | c :: r => if f c then c :: take_while f r else []
  end.

(** A greedy [{1,n}] repetition takes at most [n] characters. *)
Fixpoint take_while_upto (n : nat) (f : N -> bool) (s : str) : str :=
  match n, s with
  | S k, c :: r => if f c then c :: take_while_upto k f r else []
  | _, _ => []
  end.

(** The optional [;?] that ends every alternative. *)
Definition opt_semi (s : str) : str :=
  match s with
  | c :: _ => if N.eqb c SEMI then [SEMI] else []
  | [] => []
  end.

(** [charref_match s]: for the text [s] that follows an ['&'], group 1 of
    the match of [_charref], the alternatives tried in order. *)
Definition charref_match (s : str) : option str :=
  match s with
  | [] => None
  | c :: r =>
      if N.eqb c HASH then
        match take_while is_digit r with
        | (_ :: _) as ds => Some (c :: ds ++ opt_semi (skipn (length ds) r))
        | [] =>
            match r with
            | x :: r' =>
                if is_xX x then
                  match take_while is_hexdigit r' with
                  | (_ :: _) as hs =>
                      Some (c :: x :: hs ++ opt_semi (skipn (length hs) r'))
                  | [] => None
                  end
                else None
            | [] => None
            end
        end
      else
        match take_while_upto 32%nat is_namechar s with
        | (_ :: _) as nm => Some (nm ++ opt_semi (skipn (length nm) s))
        | [] => None
        end
  end.

(** [s.rstrip(';')] *)
Definition rstrip_semi (s : str) : str :=
  rev ((fix drop (t : str) : str :=
          match t with
          | c :: t' => if N.eqb c SEMI then drop t' else t
          | [] => []
          end) (rev s)).

Definition digit_value (c : N) : option N :=
  if is_digit c then Some (c - 48)
  else if (97 <=? c) && (c <=? 102) then Some (c - 87)
  else if (65 <=? c) && (c <=? 70) then Some (c - 55)
  else None.

Fixpoint digits_value (base : N) (acc : N) (s : str) : option N :=
  match s with
  | [] => Some acc
  | c :: r =>
      match digit_value c with
      | Some d => if d <? base then digits_value base (acc * base + d) r
                  else None
      | None => None
      end
  end.

Section Unescape.

(** [html.entities.html5], the table of named character references of the
    standard library: a name (with or without its final [;]) to its text. *)
Variable html5 : str -> option str.

(** [sys.get_int_max_str_digits()]: the interpreter's cap on the length of
    a decimal literal [int] converts, [0] when there is none. *)
Variable int_max_str_digits : N.

(** [int(s, base)] on a string of digits, as [_replace_charref] calls
    it. *)
Definition py_int (base : N) (s : str) : result N :=
  let len := N.of_nat (length s) in
  if (base =? 10) && (0 <? int_max_str_digits) &&
     (int_max_str_digits <? len) && (640 <? len)
  then Raise ValueError
  else
    match s with
    | [] => Raise ValueError
    | _ :: _ =>
        match digits_value base 0 s with
        | Some n => Ok n
        | None => Raise ValueError
        end
    end.

(** The loop [for x in range(len(s)-1, 1, -1)] of [_replace_charref],
    from [x] downwards. *)
Fixpoint longest_name (s : str) (x : nat) : option str :=
  match x with
  | S ((S _) as x') =>
      match html5 (firstn x s) with
      | Some t => Some (t ++ skipn x s)
      | None => longest_name s x'
      end
  | _ => None
  end.

Definition replace_charref (s : str) : result str :=
  match s with
  | c :: r =>
      if N.eqb c HASH then
        num <- match r with
               | x :: r' => if is_xX x then py_int 16 (rstrip_semi r')
                            else py_int 10 (rstrip_semi r)
               | [] => Raise ValueError
               end ;;
        match assoc_N num invalid_charrefs with
        | Some t => Ok [t]
        | None =>
            if ((0xD800 <=? num) && (num <=? 0xDFFF)) || (0x10FFFF <? num)
            then Ok [0xFFFD]
            else if invalid_codepoints num then Ok []
            else Ok [num]
        end
      else
        match html5 s with
        | Some t => Ok t
        | None =>
            match longest_name s (length s - 1)%nat with
            | Some t => Ok t
            | None => Ok (AMP :: s)
            end
        end
  | [] => Raise ValueError
  end.

(** The scan of [_charref.sub(_replace_charref, s)]. *)
Fixpoint charref_sub_from (skip : nat) (s : str) : result str :=
  match s with
  | [] => Ok []
  | c :: r =>
      match skip with
      | S k => charref_sub_from k r
      | O =>
          if N.eqb c AMP then
            match charref_match r with
            | Some g =>
                t <- replace_charref g ;;
                rest <- charref_sub_from (length g) r ;;
                Ok (t ++ rest)
            | None =>
                rest <- charref_sub_from O r ;; Ok (c :: rest)
            end
          else rest <- charref_sub_from O r ;; Ok (c :: rest)
      end
  end.

Definition unescape (s : str) : result str :=
  if existsb (N.eqb AMP) s then charref_sub_from O s else Ok s.

(** [TAG_RE.sub("", t)] needs a string. *)
Definition re_sub_tags (t : pyval) : result str :=
  match t with
  | PStr s => Ok (tag_sub s)
  | _ => Raise TypeError
  end.

(** [strip_html(t)] *)
Definition strip_html (t : pyval) : result str :=
  t' <- py_or t (Ok (PStr [])) ;;
  s <- re_sub_tags t' ;;
  s' <- unescape s ;;
  Ok (strip s').

End Unescape.

(** The entries of [html5] for the characters HTML reserves, and the
    non-breaking space. *)
Definition html5_reserved : str -> option str :=
  fun s =>
    if str_eqb s (ustr "amp;") || str_eqb s (ustr "amp") then Some [AMP]
    else if str_eqb s (ustr "lt;") || str_eqb s (ustr "lt") then Some [LT]
    else if str_eqb s (ustr "gt;") || str_eqb s (ustr "gt") then Some [GT]
    else if str_eqb s (ustr "quot;") || str_eqb s (ustr "quot") then Some [34%N]
    else if str_eqb s (ustr "apos;") then Some [39%N]
    else if str_eqb s (ustr "nbsp;") || str_eqb s (ustr "nbsp") then Some [160%N]
    else None.


(** ** The transcript splitter *)

Section Splitter.

Variable html5 : str -> option str.
Variable int_max_str_digits : N.

(** [first_assignment(parts)] *)
Fixpoint first_assignment (parts : list pyval) : result pyval :=
  match parts with
  | [] => Ok PNone
  | p :: rest =>
      pt <- py_get p (ustr "part_type") PNone ;;
      hit <- (if py_eq pt (PStr (ustr "assignment"))
              then py_contains p (ustr "created_at")
              else Ok false) ;;
      if hit then py_getitem p (ustr "created_at")
      else first_assignment rest
  end.

(** The value of [fin_id] in [split]. *)
Definition split_fin_id (conv : pyval) : result pyval :=
  ai <- py_get conv (ustr "ai_agent") (PDict []) ;;
  actor <- py_get ai (ustr "actor") (PDict []) ;;
  holder <- py_or actor (py_get conv (ustr "ai_agent") (PDict [])) ;;
  py_get holder (ustr "id") PNone.

(** The list [parts] of [split]: the root message, if there is one, then
    the conversation parts. *)
Definition split_parts (conv : pyval) : result (list pyval) :=
  cm <- py_get conv (ustr "conversation_message") PNone ;;
  root <- py_or cm (py_get conv (ustr "source") PNone) ;;
  let parts := if truthy root then [root] else [] in
  cp <- py_get conv (ustr "conversation_parts") (PDict []) ;;
  more <- py_get cp (ustr "conversation_parts") (PList []) ;;
  items <- py_iter more ;;
  Ok (parts ++ items).

(** The test [cutoff and ts and ts >= cutoff] that leaves the loop. *)
Definition truncates (cutoff p : pyval) : result bool :=
  ts <- py_get p (ustr "created_at") PNone ;;
  if truthy cutoff then
    if truthy ts then py_ge ts cutoff else Ok false
  else Ok false.

(** The expression [is_fin]. *)
Definition is_fin (fin_id p a : pyval) : result bool :=
  pt <- py_get p (ustr "part_type") PNone ;;
  if py_eq pt (PStr (ustr "ai_answer")) then Ok true else
  marked <- py_contains p (ustr "ai_answer_type") ;;
  if marked then Ok true else
  aty <- py_get a (ustr "type") PNone ;;
  if py_eq aty (PStr (ustr "bot")) then Ok true else
  if truthy fin_id then
    aid <- py_get a (ustr "id") PNone ;; Ok (py_eq aid fin_id)
  else Ok false.

(** The two accumulators [(user_lines, convo_lines)]. *)
Definition lines : Type := (list str * list str)%type.

(** The body of the loop after the truncation test. *)
Definition part_lines (fin_id p : pyval) (acc : lines) : result lines :=
  raw <- py_get p (ustr "body") (PStr []) ;;
  body <- strip_html html5 int_max_str_digits raw ;;
  match body with
  | [] => Ok acc
  | _ :: _ =>
      a <- py_get p (ustr "author") (PDict []) ;;
      fin <- is_fin fin_id p a ;;
      if fin then Ok (fst acc, snd acc ++ [ustr "[Fin]  " ++ body])
      else
        aty <- py_get a (ustr "type") PNone ;;
        cust <- py_in_strset aty [ustr "contact"; ustr "user"; ustr "lead"] ;;
        if cust
        then Ok (fst acc ++ [body], snd acc ++ [ustr "[User] " ++ body])
        else Ok acc
  end.

(** The loop [for p in parts] of [split]. *)
Fixpoint split_loop (fin_id cutoff : pyval) (parts : list pyval)
    (acc : lines) : result lines :=
  match parts with
  | [] => Ok acc
  | p :: rest =>
      stop <- truncates cutoff p ;;
      if stop then Ok acc
      else
        acc' <- part_lines fin_id p acc ;;
        split_loop fin_id cutoff rest acc'
  end.

Definition blank_line : str := [10; 10].

(** [split(conv)] *)
Definition split (conv : pyval) : result (str * str) :=
  fin_id <- split_fin_id conv ;;
  parts <- split_parts conv ;;
  cutoff <- first_assignment parts ;;
  acc <- split_loop fin_id cutoff parts ([], []) ;;
  Ok (join blank_line (fst acc), join blank_line (snd acc)).

End Splitter.

(** ** The collection pipeline *)

(** The two dictionaries [ingest] appends. *)
Definition user_row (cid : pyval) (iso : str) (rating : pyval)
    (user_txt : str) : pyval :=
  PDict [ (ustr "id", cid); (ustr "created_at", PStr iso);
          (ustr "rating", rating); (ustr "user_messages", PStr user_txt) ].

Definition convo_row (cid : pyval) (iso : str) (rating : pyval)
    (full_txt : str) : pyval :=
  PDict [ (ustr "id", cid); (ustr "created_at", PStr iso);
          (ustr "rating", rating);
          (ustr "full_conversation", PStr full_txt) ].

Section Pipeline.

Variable html5 : str -> option str.
Variable int_max_str_digits : N.

(** What the program talks to: the helpdesk API. *)
Variable World : Type.

(** [fetch_full(cid)]: one HTTP request, which may fail and whose answer
    may differ from one call to the next. *)
Variable fetch_full : pyval -> World -> result pyval * World.

(** [dt.datetime.utcfromtimestamp(t).isoformat()] *)
Variable utc_isoformat : pyval -> result str.

(** The module-level variables [seen], [user_rows] and [convo_rows], and
    the world. *)
Record run : Type := mkRun {
  world : World;
  seen : list pyval;
  user_rows : list pyval;
  convo_rows : list pyval
}.

(** Statements change the run and may raise. *)
Definition M (A : Type) : Type := run -> result A * run.

Definition ret {A : Type} (a : A) : M A := fun st => (Ok a, st).

Definition bindM {A B : Type} (m : M A) (k : A -> M B) : M B :=
  fun st =>
    match m st with
    | (Ok a, st') => k a st'
    | (Raise e, st') => (Raise e, st')
    end.

Definition lift {A : Type} (r : result A) : M A := fun st => (r, st).

Definition in_seen (cid : pyval) : M bool :=
  fun st => (py_in_set cid (seen st), st).

Definition seen_add (cid : pyval) : M unit :=
  fun st => (Ok tt, mkRun (world st) (cid :: seen st)
                          (user_rows st) (convo_rows st)).

Definition call_fetch_full (cid : pyval) : M pyval :=
  fun st =>
    let (r, w) := fetch_full cid (world st) in
    (r, mkRun w (seen st) (user_rows st) (convo_rows st)).

Definition user_rows_append (row : pyval) : M unit :=
  fun st => (Ok tt, mkRun (world st) (seen st)
                          (user_rows st ++ [row]) (convo_rows st)).

Definition convo_rows_append (row : pyval) : M unit :=
  fun st => (Ok tt, mkRun (world st) (seen st)
                          (user_rows st) (convo_rows st ++ [row])).

Notation "x <~ m ;; k" := (bindM m (fun x => k))
  (at level 61, m at next level, right associativity).

(** [ingest(s)] *)
Definition ingest (s : pyval) : M unit :=
  cid <~ lift (py_getitem s (ustr "id")) ;;
  dup <~ in_seen cid ;;
  if dup then ret tt
  else
    _ <~ seen_add cid ;;
    conv <~ call_fetch_full cid ;;
    txt <~ lift (split html5 int_max_str_digits conv) ;;
    iso <~ lift (t <- py_getitem s (ustr "created_at") ;; utc_isoformat t) ;;
    rating <~ lift (ai <- py_getitem s (ustr "ai_agent") ;;
                    py_get ai (ustr "rating") PNone) ;;
    _ <~ user_rows_append (user_row cid iso rating (fst txt)) ;;
    convo_rows_append (convo_row cid iso rating (snd txt)).

(** [for c in summaries: ingest(c)], for the summaries a search yields. *)
Fixpoint ingest_all (summaries : list pyval) : M unit :=
  match summaries with
  | [] => ret tt
  | c :: rest => _ <~ ingest c ;; ingest_all rest
  end.

(** The run at [seen=set(); user_rows=[]; convo_rows=[]]. *)
Definition start (w : World) : run := mkRun w [] [] [].

(** The two loops of section 7, over the summaries the searches
    [ESCALATED] and [LOW_CSAT] yield. *)
Definition collect (escalated low_csat : list pyval) : M unit :=
  _ <~ ingest_all escalated ;; ingest_all low_csat.

End Pipeline.

Arguments mkRun {World} world seen user_rows convo_rows.
Arguments world {World} r.
Arguments seen {World} r.
Arguments user_rows {World} r.
Arguments convo_rows {World} r.
Arguments start {World} w.
Arguments ret {World A} a _.
Arguments bindM {World A B} m k _.
Arguments lift {World A} r _.
Arguments ingest html5 int_max_str_digits {World} fetch_full utc_isoformat s _.
Arguments ingest_all html5 int_max_str_digits {World} fetch_full
  utc_isoformat summaries _.
Arguments collect html5 int_max_str_digits {World} fetch_full utc_isoformat
  escalated low_csat _.

(** ** An instance of the environment *)

Local Open Scope Z_scope.

(** The decimal digits of [n], padded with zeros to [width] characters. *)
Fixpoint zero_padded (width : nat) (n : Z) : str :=
  match width with
  | O => []
  | S w => zero_padded w (n / 10) ++ [Z.to_N (48 + n mod 10)]
  end.

(** Year, month and day of the day [z] days after 1970-01-01. *)
Definition civil_from_days (z : Z) : Z * Z * Z :=
  let z := z + 719468 in
  let era := z / 146097 in
  let doe := z - era * 146097 in
  let yoe := (doe - doe / 1460 + doe / 36524 - doe / 146096) / 365 in
  let doy := doe - (365 * yoe + yoe / 4 - yoe / 100) in
  let mp := (5 * doy + 2) / 153 in
  let d := doy - (153 * mp + 2) / 5 + 1 in
  let m := if mp <? 10 then mp + 3 else mp - 9 in
  let y := yoe + era * 400 + (if m <=? 2 then 1 else 0) in
  (y, m, d).

(** [dt.datetime.utcfromtimestamp(t).isoformat()] for an integer [t] of the
    years 1 to 9999.  Outside them the call raises; which exception depends
    on the platform, and [ValueError] stands for it here. *)
Definition utc_isoformat_int (t : pyval) : result str :=
  match as_int t with
  | None => Raise TypeError
  | Some t =>
      if (t <? -62135596800) || (253402300799 <? t) then Raise ValueError
      else
        let '(y, m, d) := civil_from_days (t / 86400) in
        let s := t mod 86400 in
        Ok (zero_padded 4 y ++ ustr "-" ++ zero_padded 2 m ++ ustr "-" ++
            zero_padded 2 d ++ ustr "T" ++ zero_padded 2 (s / 3600) ++
            ustr ":" ++ zero_padded 2 (s mod 3600 / 60) ++ ustr ":" ++
            zero_padded 2 (s mod 60))
  end.

Local Close Scope Z_scope.

(** A helpdesk that answers every request with the same conversation and
    counts the requests it served. *)
Definition fetch_constant (conv : pyval) : pyval -> nat -> result pyval * nat :=
  fun _ served => (Ok conv, S served).

(** ** Reading fields without side conditions *)

Definition field (k : string) (v : pyval) : option pyval :=
  match v with
  | PDict d => lookup (ustr k) d
  | _ => None
  end.

(** An absent field reads as [None]. *)
Definition value (k : string) (v : pyval) : pyval :=
  match field k v with
  | Some x => x
  | None => PNone
  end.

Definition has_field (k : string) (v : pyval) : bool :=
  match field k v with
  | Some _ => true
  | None => false
  end.

(** ** The shape of a conversation *)

(** The agent metadata of the data model: the conversation is an object
    whose [ai_agent] is absent or an object, with an [actor] that is absent,
    [null] or an object. *)
Definition agent_metadata_ok (conv : pyval) : bool :=
  match conv with
  | PDict _ =>
      match field "ai_agent" conv with
      | None => true
      | Some (PDict _ as ai) =>
          match field "actor" ai with
          | None | Some PNone | Some (PDict _) => true
          | Some _ => false
          end
      | Some _ => false
      end
  | _ => false
  end.

(** ** The classification of section 4.2, step 6, in the specification's
    words *)








(** ** The loop without a cutoff: every part is processed. *)

Section NoCutoff.

Variable html5 : str -> option str.
Variable int_max_str_digits : N.

Fixpoint process_all (fin_id : pyval) (parts : list pyval) (acc : lines)
    : result lines :=
  match parts with
  | [] => Ok acc
  | p :: rest =>
      acc' <- part_lines html5 int_max_str_digits fin_id p acc ;;
      process_all fin_id rest acc'
  end.

(** The pair [split] returns for the accumulators [acc]. *)
Definition transcripts (acc : result lines) : result (str * str) :=
  a <- acc ;; Ok (join blank_line (fst a), join blank_line (snd a)).

End NoCutoff.

(** ** Rows *)

(** A summary or a row carries the identifier [cid]. *)
Definition has_id (cid : pyval) (v : pyval) : bool :=
  match field "id" v with
  | Some c => py_eq c cid
  | None => false
  end.

Definition count_id (cid : pyval) (rows : list pyval) : nat :=
  length (filter (has_id cid) rows).

(** Two rows carry the same [id], [created_at] and [rating]. *)
Definition same_summary_fields (u c : pyval) : Prop :=
  exists cid iso rating,
    field "id" u = Some cid /\ field "id" c = Some cid /\
    field "created_at" u = Some iso /\ field "created_at" c = Some iso /\
    field "rating" u = Some rating /\ field "rating" c = Some rating.

Definition rows_aligned (users convos : list pyval) : Prop :=
  length users = length convos /\
  forall i u c,
    nth_error users i = Some u -> nth_error convos i = Some c ->
    same_summary_fields u c.

(** ** The scenarios *)

Definition obj (fields : list (string * pyval)) : pyval :=
  PDict (map (fun kv => (ustr (fst kv), snd kv)) fields).

Definition text (s : string) : pyval := PStr (ustr s).

(** Scenario A: one root message by a contact, no parts.  The root is read
    from [conversation_message] or from [source]; the list of parts is
    absent or empty. *)
Definition root_A : pyval :=
  obj [ ("author", obj [("type", text "contact")]);
        ("body", text "<p>Hi</p>") ]%string.

Definition detail_A (root_key : string) (with_parts : bool) : pyval :=
  obj ((root_key, root_A) ::
       if with_parts
       then [("conversation_parts",
              obj [("conversation_parts", PList [])])]%string
       else []).

(** Scenario B: an answer of the agent, the assignment at 100, a human
    reply at 200 with any further fields. *)
Definition agent_B : pyval :=
  obj [ ("part_type", text "ai_answer"); ("body", text "Hello&amp;") ]%string.

Definition assignment_B : pyval :=
  obj [ ("part_type", text "assignment"); ("created_at", PInt 100) ]%string.

Definition human_B (fields : list (str * pyval)) : pyval :=
  PDict ((ustr "created_at", PInt 200) :: fields).

Definition parts_B (fields : list (str * pyval)) : list pyval :=
  [agent_B; assignment_B; human_B fields].

Definition detail_B (fields : list (str * pyval)) : pyval :=
  obj [ ("conversation_parts",
         obj [("conversation_parts", PList (parts_B fields))]) ]%string.

Definition admin_reply : list (str * pyval) :=
  [ (ustr "part_type", text "comment");
    (ustr "body", text "<p>On it</p>");
    (ustr "author", obj [("type", text "admin")]%string) ].

(** A conversation whose agent metadata is [null]. *)
Definition detail_null_agent : pyval := obj [("ai_agent", PNone)]%string.

(** A conversation with the parts [parts] and nothing else. *)
Definition detail_of (parts : list pyval) : pyval :=
  obj [ ("conversation_parts",
         obj [("conversation_parts", PList parts)]) ]%string.

(** A conversation whose agent metadata is [null] and whose list of parts
    is empty. *)
Definition detail_null_agent_no_parts : pyval :=
  obj [ ("ai_agent", PNone);
        ("conversation_parts", obj [("conversation_parts", PList [])]) ]%string.

(** A conversation handed off at timestamp 0, with a later message of the
    customer. *)
Definition late_message : pyval :=
  obj [ ("part_type", text "comment"); ("created_at", PInt 5);
        ("body", text "late");
        ("author", obj [("type", text "user")]) ]%string.

Definition detail_epoch_handoff : pyval :=
  obj [ ("conversation_parts",
         obj [("conversation_parts",
               PList [ obj [ ("part_type", text "assignment");
                             ("created_at", PInt 0) ];
                       late_message ])]) ]%string.

(** A summary, as the search returns it. *)
Definition summary (cid : string) (created_at : Z) (rating : pyval) : pyval :=
  obj [ ("id", text cid); ("created_at", PInt created_at);
        ("ai_agent", obj [("rating", rating)]) ]%string.

(** A conversation of the agent without any message. *)
Definition detail_empty : pyval :=
  obj [ ("ai_agent", obj [("actor", obj [("id", text "fin-1")])]);
        ("conversation_parts", obj [("conversation_parts", PList [])]) ]%string.

(** Two searches that both find conversation 42. *)
Definition escalated_sample : list pyval :=
  [summary "42" 1700000000 (PInt 1); summary "7" 0 PNone].

Definition low_csat_sample : list pyval :=
  [summary "42" 1700000300 (PInt 1); summary "9" 86400 (PInt 0)].

(** ** Statements about the pipeline *)

(** What [hash] and [==] distinguish among the values that can be hashed:
    [True] and [1] are one key, and so are [False] and [0]. *)
Inductive key : Type :=
| KNone
| KInt (z : Z)
| KStr (s : str).

Definition key_of (v : pyval) : option key :=
  match v with
  | PNone => Some KNone
  | PBool true => Some (KInt 1)
  | PBool false => Some (KInt 0)
  | PInt z => Some (KInt z)
  | PStr s => Some (KStr s)
  | PList _ | PDict _ => None
  end.

(** The rows of the identifier [cid] are as many as [seen] says: one when
    [cid] is in it, none otherwise. *)
Definition rows_follow_seen (seen rows : list pyval) : Prop :=
  forall cid, hashable cid = true ->
    count_id cid rows = if existsb (py_eq cid) seen then 1%nat else 0%nat.

(** The three ways a call of [ingest] ends. *)
Inductive outcome {World : Type} (s : pyval) (st : run World) :
    result unit -> run World -> Prop :=
| Skipped (cid : pyval) :
    field "id" s = Some cid ->
    py_in_set cid (seen st) = Ok true ->
    outcome s st (Ok tt) st
| Failed (e : exn) (st' : run World) :
    user_rows st' = user_rows st ->
    convo_rows st' = convo_rows st ->
    outcome s st (Raise e) st'
| Added (cid rating : pyval) (iso user_txt full_txt : str) (w : World) :
    field "id" s = Some cid ->
    py_in_set cid (seen st) = Ok false ->
    outcome s st (Ok tt)
      (mkRun w (cid :: seen st)
         (user_rows st ++ [user_row cid iso rating user_txt])
         (convo_rows st ++ [convo_row cid iso rating full_txt])).

(** What holds of the run between two calls of [ingest]. *)
Definition consistent {World : Type} (st : run World) : Prop :=
  rows_follow_seen (seen st) (user_rows st) /\
  rows_follow_seen (seen st) (convo_rows st) /\
  Forall (fun c => hashable c = true) (seen st).

(** [st'] is [st] after more calls: what was seen stays seen, and rows are
    only appended. *)
Definition extends {World : Type} (st st' : run World) : Prop :=
  (forall c, existsb (py_eq c) (seen st) = true ->
             existsb (py_eq c) (seen st') = true) /\
  (exists more, user_rows st' = user_rows st ++ more) /\
  (exists more, convo_rows st' = convo_rows st ++ more).

(** The call of [ingest] that makes the rows of [cid]: the call on the
    first of the [summaries] that carries [cid], which appends one row to
    each list. *)
Definition discovered_in (html5 : str -> option str) (cap : N) {World : Type}
    (fetch_full : pyval -> World -> result pyval * World)
    (utc_isoformat : pyval -> result str)
    (summaries : list pyval) (w : World) (cid : pyval) : Prop :=
  exists before s after st st' c rating iso user_txt full_txt,
    summaries = before ++ s :: after /\
    existsb (has_id cid) before = false /\
    field "id" s = Some c /\ py_eq c cid = true /\
    ingest_all html5 cap fetch_full utc_isoformat before (start w) =
      (Ok tt, st) /\
    ingest html5 cap fetch_full utc_isoformat s st = (Ok tt, st') /\
    user_rows st' = user_rows st ++ [user_row c iso rating user_txt] /\
    convo_rows st' = convo_rows st ++ [convo_row c iso rating full_txt].

(** ** Statements about the normalizer *)

(** A string that does not begin with whitespace. *)
Definition no_leading_space (s : str) : Prop :=
  match s with
  | [] => True
  | c :: _ => isspace c = false
  end.

(** Normalizing the string [x] twice gives what normalizing it once
    gives. *)
Definition idempotent_at (html5 : str -> option str) (m : N) (x : str) : Prop :=
  forall y z,
    strip_html html5 m (PStr x) = Ok y ->
    strip_html html5 m (PStr y) = Ok z -> z = y.

(** ** Further statements about the normalizer and the splitter *)

(** No ['<'] of the string opens a match of [TAG_RE]. *)
Definition tagless (s : str) : Prop :=
  forall before after, s = before ++ LT :: after -> tag_match after = None.

(** The string neither begins nor ends with whitespace. *)
Definition trimmed (s : str) : Prop :=
  no_leading_space s /\ no_leading_space (rev s).

(** A part that marks the hand-off: an assignment that has the key
    [created_at]. *)
Definition is_handoff (p : pyval) : bool :=
  py_eq (value "part_type" p) (PStr (ustr "assignment")) &&
  has_field "created_at" p.

(** A part that is an object and does not mark the hand-off. *)
Definition plain_part (p : pyval) : Prop :=
  (exists d, p = PDict d) /\ is_handoff p = false.

(** The text of a line of the full transcript that carries the tag of the
    customer. *)
Definition user_text (line : str) : option str :=
  if str_prefixb (ustr "[User] ") line then Some (skipn 7 line) else None.

Fixpoint user_texts (convo_lines : list str) : list str :=
  match convo_lines with
  | [] => []
  | l :: ls =>
      match user_text l with
      | Some b => b :: user_texts ls
      | None => user_texts ls
      end
  end.

(** A line of the full transcript: a tag, then text that is not empty and
    is trimmed. *)
Definition tagged_line (line : str) : Prop :=
  exists body, body <> [] /\ trimmed body /\
    (line = ustr "[Fin]  " ++ body \/ line = ustr "[User] " ++ body).

(** The identifiers in the order of their first occurrence, without those
    already in [seen]. *)
Fixpoint first_occurrences (seen ids : list pyval) : list pyval :=
  match ids with
  | [] => []
  | c :: rest =>
      if existsb (py_eq c) seen then first_occurrences seen rest
      else c :: first_occurrences (c :: seen) rest
  end.

(** ** The searches *)

(** [d[k] = v] on the items of a dictionary: a key that is there keeps its
    place, a new key goes last. *)
Fixpoint dict_set (k : str) (v : pyval) (d : list (str * pyval))
    : list (str * pyval) :=
  match d with
  | [] => [(k, v)]
  | (k', x) :: d' =>
      if str_eqb k k' then (k', v) :: d' else (k', x) :: dict_set k v d'
  end.

(** [v[k] = x] for a string [k]; the result is [v] after the assignment. *)
Definition py_setitem (v : pyval) (k : str) (x : pyval) : result pyval :=
  match v with
  | PDict d => Ok (PDict (dict_set k x d))
  | _ => Raise TypeError
  end.

(** One clause of a query. *)
Definition clause (name operator : string) (v : pyval) : pyval :=
  obj [("field", text name); ("operator", text operator); ("value", v)]%string.

(** [TIME_FILTER], for the bounds [y_start] and [y_end] of the window. *)
Definition TIME_FILTER (y_start y_end : Z) : list pyval :=
  [ clause "updated_at" ">" (PInt y_start);
    clause "updated_at" "<" (PInt y_end) ].

(** [ESCALATED] *)
Definition ESCALATED (y_start y_end : Z) : pyval :=
  obj [ ("query",
         obj [ ("operator", text "AND");
               ("value",
                PList ([ clause "ai_agent_participated" "=" (PBool true);
                         clause "ai_agent.resolution_state" "="
                           (text "routed_to_team") ] ++
                       TIME_FILTER y_start y_end)) ]);
        ("pagination", obj [("per_page", PInt 100)]) ]%string.

(** [LOW_CSAT] *)
Definition LOW_CSAT (y_start y_end : Z) : pyval :=
  obj [ ("query",
         obj [ ("operator", text "AND");
               ("value",
                PList ([ clause "ai_agent_participated" "=" (PBool true);
                         clause "ai_agent.rating" "<" (PInt 2) ] ++
                       TIME_FILTER y_start y_end)) ]);
        ("pagination", obj [("per_page", PInt 100)]) ]%string.

(** What [yield from pg.get("conversations",[])] yields. *)
Definition page_items (pg : pyval) : result (list pyval) :=
  c <- py_get pg (ustr "conversations") (PList []) ;; py_iter c.

(** The value of [nxt]. *)
Definition page_cursor (pg : pyval) : result pyval :=
  pages <- py_get pg (ustr "pages") (PDict []) ;;
  next <- py_get pages (ustr "next") (PDict []) ;;
  py_get next (ustr "starting_after") PNone.

(** [body] after [body["pagination"]["starting_after"]=nxt]: the
    dictionary under [pagination] is changed in place. *)
Definition with_cursor (body nxt : pyval) : result pyval :=
  pag <- py_getitem body (ustr "pagination") ;;
  pag' <- py_setitem pag (ustr "starting_after") nxt ;;
  py_setitem body (ustr "pagination") pag'.

Section Search.

(** The state the loop runs in. *)
Variable State : Type.

(** [requests.post(.../search, json=body, ...)], [raise_for_status] and
    [r.json()]. *)
Variable search_post : pyval -> State -> result pyval * State.

(** The body of the loop that consumes the generator. *)
Variable loop_body : pyval -> State -> result unit * State.

(** [for c in items: loop_body(c)] *)
Fixpoint for_each (items : list pyval) (st : State) : result unit * State :=
  match items with
  | [] => (Ok tt, st)
  | c :: rest =>
      match loop_body c st with
      | (Ok _, st') => for_each rest st'
      | (Raise e, st') => (Raise e, st')
      end
  end.

(** [for c in run_search(template): loop_body(c)], from the request
    [body] on: the generator runs between the rounds of the loop.  The loop
    of [run_search] has no bound; [fuel] bounds the number of requests, and
    [None] says that it did not suffice. *)
Fixpoint run_search_from (fuel : nat) (body : pyval) (st : State)
    : option (result unit * State) :=
  match fuel with
  | O => None
  | S fuel' =>
      match search_post body st with
      | (Raise e, st1) => Some (Raise e, st1)
      | (Ok pg, st1) =>
          match page_items pg with
          | Raise e => Some (Raise e, st1)
          | Ok items =>
              match for_each items st1 with
              | (Raise e, st2) => Some (Raise e, st2)
              | (Ok _, st2) =>
                  match page_cursor pg with
                  | Raise e => Some (Raise e, st2)
                  | Ok nxt =>
                      if truthy nxt then
                        match with_cursor body nxt with
                        | Raise e => Some (Raise e, st2)
                        | Ok body' => run_search_from fuel' body' st2
                        end
                      else Some (Ok tt, st2)
                  end
              end
          end
      end
  end.

End Search.

Arguments for_each {State} loop_body items st.
Arguments run_search_from {State} search_post loop_body fuel body st.

Section Script.

Variable html5 : str -> option str.
Variable int_max_str_digits : N.
Variable World : Type.
Variable search_post : pyval -> World -> result pyval * World.
Variable fetch_full : pyval -> World -> result pyval * World.
Variable utc_isoformat : pyval -> result str.

(** A search request in the run: it changes the world only. *)
Definition post_in_run (body : pyval) (st : run World)
    : result pyval * run World :=
  let (r, w) := search_post body (world st) in
  (r, mkRun w (seen st) (user_rows st) (convo_rows st)).

(** The two loops of section 7:
    [for c in run_search(ESCALATED): ingest(c)] and
    [for c in run_search(LOW_CSAT): ingest(c)]. *)
Definition run_script (fuel : nat) (y_start y_end : Z) (w : World)
    : option (result unit * run World) :=
  match run_search_from post_in_run
          (ingest html5 int_max_str_digits fetch_full utc_isoformat)
          fuel (ESCALATED y_start y_end) (start w) with
  | Some (Ok _, st1) =>
      run_search_from post_in_run
        (ingest html5 int_max_str_digits fetch_full utc_isoformat)
        fuel (LOW_CSAT y_start y_end) st1
  | other => other
  end.

End Script.

Arguments post_in_run {World} search_post body st.
Arguments run_script html5 int_max_str_digits {World} search_post fetch_full
  utc_isoformat fuel y_start y_end w.

(** A helpdesk whose search answers with the pages of a list, one for each
    request, and fails when the list is exhausted. *)
Definition scripted_post {A : Type} (body : pyval) (st : list pyval * A)
    : result pyval * (list pyval * A) :=
  match fst st with
  | [] => (Raise RequestException, st)
  | pg :: rest => (Ok pg, (rest, snd st))
  end.

(** A loop body that does not touch the helpdesk. *)
Definition beside {A : Type} (k : pyval -> A -> result unit * A)
    (c : pyval) (st : list pyval * A) : result unit * (list pyval * A) :=
  let (r, a) := k c (snd st) in (r, (fst st, a)).

(** The conversations of a list of pages. *)
Definition yielded (pages : list pyval) : list pyval :=
  concat (map (fun pg => match page_items pg with
                         | Ok items => items
                         | Raise _ => []
                         end) pages).

(** A page with conversations and a cursor to the next page. *)
Definition inner_page (pg : pyval) : Prop :=
  (exists items, page_items pg = Ok items) /\
  exists nxt, page_cursor pg = Ok nxt /\ truthy nxt = true.

(** A page with conversations and no cursor. *)
Definition last_page (pg : pyval) : Prop :=
  (exists items, page_items pg = Ok items) /\
  exists nxt, page_cursor pg = Ok nxt /\ truthy nxt = false.

(** A request whose [pagination] is an object. *)
Definition paginated (body : pyval) : Prop :=
  exists b pag, body = PDict b /\
                lookup (ustr "pagination") b = Some (PDict pag).

(** Sample pages and worlds. *)
Definition page (conversations : list pyval) (cursor : pyval) : pyval :=
  obj [ ("conversations", PList conversations);
        ("pages", obj [("next", obj [("starting_after", cursor)])]) ]%string.

Definition final_page (conversations : list pyval) : pyval :=
  obj [ ("conversations", PList conversations);
        ("pages", obj [("page", PInt 2)]) ]%string.

Definition fetch_fixed (conv : pyval)
    : pyval -> list pyval -> result pyval * list pyval :=
  fun _ pages => (Ok conv, pages).

Definition pop_page (body : pyval) (pages : list pyval)
    : result pyval * list pyval :=
  match pages with
  | [] => (Raise RequestException, [])
  | pg :: rest => (Ok pg, rest)
  end.

Definition fetch_down : pyval -> nat -> result pyval * nat :=
  fun _ served => (Raise RequestException, S served).

Definition collect_item (c : pyval) (got : list pyval)
    : result unit * list pyval :=
  (Ok tt, got ++ [c]).

(** ** The CSV files *)

Definition COMMA : N := 44.
Definition QUOTE : N := 34.
Definition CR : N := 13.
Definition LF : N := 10.

(** The characters that make the writer quote a field: the delimiter, the
    quote character and those of the line terminator. *)
Definition csv_special (c : N) : bool :=
  (c =? COMMA) || (c =? QUOTE) || (c =? CR) || (c =? LF).

(** Every quote character doubled. *)
Fixpoint csv_double (s : str) : str :=
  match s with
  | [] => []
  | c :: r =>
      if c =? QUOTE then QUOTE :: QUOTE :: csv_double r
      else c :: csv_double r
  end.

(** A code point the codec [utf-8] refuses. *)
Definition is_surrogate (c : N) : bool := (0xD800 <=? c) && (c <=? 0xDFFF).

Definition encodable (s : str) : bool := negb (existsb is_surrogate s).

(** One field as [csv.writer] writes it with the dialect [excel]. *)
Definition csv_field (s : str) : str :=
  if existsb csv_special s then QUOTE :: csv_double s ++ [QUOTE] else s.

Section Csv.

(** [str(v)] for a value that is neither [None] nor a string. *)
Variable py_str : pyval -> str.

(** The text of a field: [None] is written as the empty string. *)
Definition csv_text (v : pyval) : str :=
  match v with
  | PNone => []
  | PStr s => s
  | _ => py_str v
  end.

(** [writer.writerow(fields)]: the text of one record.  A record of one
    empty field is written as two quote characters. *)
Definition csv_writerow (fields : list pyval) : str :=
  match fields with
  | [v] =>
      match csv_text v with
      | [] => [QUOTE; QUOTE; CR; LF]
      | s => csv_field s ++ [CR; LF]
      end
  | _ => join [COMMA] (map (fun v => csv_field (csv_text v)) fields) ++ [CR; LF]
  end.

Definition csv_writerows (rows : list (list pyval)) : str :=
  concat (map csv_writerow rows).

(** [DictWriter._dict_to_list(rowdict)] *)
Definition dict_to_list (fieldnames : list str) (rowdict : pyval)
    : result (list pyval) :=
  match rowdict with
  | PDict d =>
      if forallb (fun kv => existsb (str_eqb (fst kv)) fieldnames) d
      then Ok (map (fun key => match lookup key d with
                               | Some v => v
                               | None => PStr []
                               end) fieldnames)
      else Raise ValueError
  | _ => Raise AttributeError
  end.

(** [f.write(text)] on a file opened with [encoding="utf-8"], held as the
    text written to it so far.  The text is encoded when it is written; the
    codec refuses surrogates with [UnicodeEncodeError], which is a
    [ValueError], and nothing of the text is written then. *)
Definition file_write (text file : str) : result unit * str :=
  if encodable text then (Ok tt, file ++ text) else (Raise ValueError, file).

(** [DictWriter.writerows(rowdicts)] on a file that holds [file]: the
    outcome and what the file holds then.  Each record is one write. *)
Fixpoint writerows (fieldnames : list str) (rowdicts : list pyval)
    (file : str) : result unit * str :=
  match rowdicts with
  | [] => (Ok tt, file)
  | r :: rest =>
      match dict_to_list fieldnames r with
      | Ok fields =>
          match file_write (csv_writerow fields) file with
          | (Ok _, file') => writerows fieldnames rest file'
          | (Raise e, file') => (Raise e, file')
          end
      | Raise e => (Raise e, file)
      end
  end.

(** [w.writeheader(); w.writerows(rows)] on a new file. *)
Definition write_csv (fieldnames : list str) (rows : list pyval)
    : result unit * str :=
  match file_write (csv_writerow (map PStr fieldnames)) [] with
  | (Ok _, file) => writerows fieldnames rows file
  | (Raise e, file) => (Raise e, file)
  end.

Definition user_fields : list str :=
  [ustr "id"; ustr "created_at"; ustr "rating"; ustr "user_messages"].

Definition convo_fields : list str :=
  [ustr "id"; ustr "created_at"; ustr "rating"; ustr "full_conversation"].

(** Section 8: the texts of the files written, in the order they are
    opened; the second file is not opened when writing the first raises. *)
Definition save_csvs (user_rows convo_rows : list pyval)
    : result unit * list str :=
  match write_csv user_fields user_rows with
  | (Raise e, esc) => (Raise e, [esc])
  | (Ok _, esc) =>
      let (r, con) := write_csv convo_fields convo_rows in (r, [esc; con])
  end.

End Csv.

(** The cells of a row for the given field names. *)
Definition cells (fieldnames : list str) (row : pyval) : list pyval :=
  map (fun key => match row with
                  | PDict d => match lookup key d with
                               | Some v => v
                               | None => PStr []
                               end
                  | _ => PStr []
                  end) fieldnames.

(** A sample [str]: numbers are not needed by the samples. *)
Definition str_of_bool (v : pyval) : str :=
  match v with
  | PBool true => ustr "True"
  | PBool false => ustr "False"
  | _ => ustr "?"
  end.

(** The rows [ingest] builds. *)
Definition user_row_shape (r : pyval) : Prop :=
  exists cid iso rating txt, r = user_row cid iso rating txt.

Definition convo_row_shape (r : pyval) : Prop :=
  exists cid iso rating txt, r = convo_row cid iso rating txt.

(** What follows a field in a record: a comma or the line terminator. *)
Definition delimited (r : str) : Prop :=
  exists c r', r = c :: r' /\ (c = COMMA \/ c = CR).

(** ** The report files and their delivery *)

(** [str(d)] for a date of the years 1 to 9999. *)
Definition isoformat_date (y m d : Z) : str :=
  zero_padded 4 y ++ ustr "-" ++ zero_padded 2 m ++ ustr "-" ++
  zero_padded 2 d.

(** The names of the two files: [esc_f] and [con_f] of the export, [files]
    of the delivery. *)
Definition escalations_name (y_date : str) : str :=
  ustr "fin_escalations_" ++ y_date ++ ustr ".csv".

Definition conversations_name (y_date : str) : str :=
  ustr "fin_conversations_" ++ y_date ++ ustr ".csv".

Definition report_files (y_date : str) : list str :=
  [escalations_name y_date; conversations_name y_date].

Definition TAG_LINE : str := ustr "<@U089ABCD>".

(** The report line of the delivery, which begins with U+1F4CA and holds an
    en dash. *)
Definition report_comment (y_date : str) : str :=
  [128202%N] ++ ustr " *Fin AI report " ++ [8211%N] ++ ustr " " ++ y_date ++
  ustr "*" ++ [10%N] ++ TAG_LINE.

(** [comment] for the file named [name]. *)
Definition initial_comment (y_date name : str) : str :=
  if str_containsb (ustr "escalations") name then report_comment y_date
  else [].

Section Delivery.

Variable World : Type.

(** One upload: opening the file [name], the request to [files.upload]
    with the comment, and [raise_for_status]. *)
Variable upload : str -> str -> World -> result unit * World.

(** [for f in files: ...] *)
Fixpoint upload_each (y_date : str) (names : list str) (w : World)
    : result unit * World :=
  match names with
  | [] => (Ok tt, w)
  | name :: rest =>
      match upload name (initial_comment y_date name) w with
      | (Ok _, w') => upload_each y_date rest w'
      | (Raise e, w') => (Raise e, w')
      end
  end.

Definition send_to_slack (y_date : str) (w : World) : result unit * World :=
  upload_each y_date (report_files y_date) w.

End Delivery.

Arguments upload_each {World} upload y_date names w.
Arguments send_to_slack {World} upload y_date w.

(** A channel that records what it is sent. *)
Definition record_upload (name comment : str) (sent : list (str * str))
    : result unit * list (str * str) :=
  (Ok tt, sent ++ [(name, comment)]).

(** * Properties *)

(** ** Results *)

Lemma bind_Ok {A B : Type} (r : result A) (k : A -> result B) (b : B) :
  bind r k = Ok b -> exists a, r = Ok a /\ k a = Ok b.
Proof.
  destruct r as [a | e]; simpl; intros H.
  - exists a; split; [reflexivity | exact H].
  - discriminate H.
Qed.

Lemma str_eqb_eq (s t : str) : str_eqb s t = true <-> s = t.
Proof.
  unfold str_eqb; destruct (list_eq_dec N.eq_dec s t); split; intros H;
    congruence.
Qed.

Lemma str_eqb_refl (s : str) : str_eqb s s = true.
Proof. apply str_eqb_eq; reflexivity. Qed.

(** ** The text normalizer *)

Section NormalizerFacts.

Variable html5 : str -> option str.
Variable int_max_str_digits : N.

Lemma tag_sub_without_lt (s : str) :
  ~ In LT s -> tag_sub s = s.
Proof.
  unfold tag_sub; induction s as [| c r IH]; intros Hno; simpl.
  - reflexivity.
  - destruct (N.eqb_spec c LT) as [-> | _].
    + exfalso; apply Hno; left; reflexivity.
    + rewrite IH; [reflexivity |].
      intros Hin; apply Hno; right; exact Hin.
Qed.

Lemma unescape_without_amp (s : str) :
  ~ In AMP s -> unescape html5 int_max_str_digits s = Ok s.
Proof.
  intros Hno; unfold unescape.
  destruct (existsb (N.eqb AMP) s) eqn:E; [| reflexivity].
  apply existsb_exists in E; destruct E as [c [Hin Hc]].
  apply N.eqb_eq in Hc; subst c; contradiction.
Qed.

Lemma lstrip_no_leading_space (s : str) : no_leading_space (lstrip s).
Proof.
  induction s as [| c r IH]; simpl; [exact I |].
  destruct (isspace c) eqn:E; [exact IH | simpl; exact E].
Qed.

Lemma lstrip_fixed (s : str) : no_leading_space s -> lstrip s = s.
Proof.
  destruct s as [| c r]; simpl; [reflexivity |].
  intros ->; reflexivity.
Qed.

Lemma lstrip_snoc (s : str) (c : N) :
  isspace c = false -> exists w, lstrip (s ++ [c]) = w ++ [c].
Proof.
  intros Hc; induction s as [| d r [w Hw]]; simpl.
  - rewrite Hc; exists []; reflexivity.
  - destruct (isspace d).
    + exists w; exact Hw.
    + exists (d :: r); reflexivity.
Qed.

Lemma rstrip_no_leading_space (s : str) :
  no_leading_space s -> no_leading_space (rstrip s).
Proof.
  destruct s as [| c r]; intros Hs.
  - exact I.
  - unfold rstrip; simpl in *.
    destruct (lstrip_snoc (rev r) c Hs) as [w Hw].
    rewrite Hw, rev_app_distr; simpl; exact Hs.
Qed.

Lemma rstrip_idempotent (s : str) : rstrip (rstrip s) = rstrip s.
Proof.
  unfold rstrip; rewrite rev_involutive.
  rewrite (lstrip_fixed _ (lstrip_no_leading_space (rev s))); reflexivity.
Qed.

Lemma strip_idempotent (s : str) : strip (strip s) = strip s.
Proof.
  unfold strip.
  rewrite (lstrip_fixed _
             (rstrip_no_leading_space _ (lstrip_no_leading_space s))).
  apply rstrip_idempotent.
Qed.

(** [strip_html] on a string: the [or ""] changes nothing. *)
Lemma strip_html_str (x : str) :
  strip_html html5 int_max_str_digits (PStr x) =
  s <- unescape html5 int_max_str_digits (tag_sub x) ;; Ok (strip s).
Proof.
  unfold strip_html, py_or; destruct x; reflexivity.
Qed.

(** C1, as amended: [strip_html] is idempotent on every string whose
    normalized text holds neither ['<'] nor ['&']: normalizing that text
    again returns it unchanged. *)
Theorem strip_html_idempotent_plain (x y : str) :
  strip_html html5 int_max_str_digits (PStr x) = Ok y ->
  ~ In LT y -> ~ In AMP y ->
  strip_html html5 int_max_str_digits (PStr y) = Ok y.
Proof.
  rewrite !strip_html_str; intros Hx Hlt Hamp.
  apply bind_Ok in Hx; destruct Hx as [s [_ Hs]].
  injection Hs as <-.
  rewrite (tag_sub_without_lt _ Hlt), (unescape_without_amp _ Hamp); simpl.
  rewrite strip_idempotent; reflexivity.
Qed.

End NormalizerFacts.

Lemma strip_html_idempotent_plain_witness :
  strip_html html5_reserved 4300 (text "<p> Hi there </p>") =
    Ok (ustr "Hi there") /\
  strip_html html5_reserved 4300 (PStr (ustr "Hi there")) = Ok (ustr "Hi there").
Proof.
  split; [reflexivity |].
  apply (strip_html_idempotent_plain html5_reserved 4300
           (ustr "<p> Hi there </p>") (ustr "Hi there")).
  - reflexivity.
  - simpl; unfold LT; intros H; repeat destruct H as [H | H]; try discriminate H; exact H.
  - simpl; unfold AMP; intros H; repeat destruct H as [H | H]; try discriminate H; exact H.
Defined.

(** C1 fails on an escaped tag: ["&#60;b&#62;"] normalizes to ["<b>"], which
    normalizes to the empty string. *)
Lemma strip_html_not_idempotent :
  ~ idempotent_at html5_reserved 4300 (ustr "&#60;b&#62;").
Proof.
  intros H.
  specialize (H (ustr "<b>") (ustr "") eq_refl eq_refl).
  discriminate H.
Qed.

(** ** The transcript splitter *)

Section SplitterFacts.

Variable html5 : str -> option str.
Variable cap : N.

(** With agent metadata of the expected shape the agent id is found, or is
    [None]. *)
Lemma split_fin_id_returns (conv : pyval) :
  agent_metadata_ok conv = true -> exists fin_id, split_fin_id conv = Ok fin_id.
Proof.
  destruct conv as [| b | z | s | l | d]; try discriminate.
  unfold agent_metadata_ok, split_fin_id, field, py_get at 1 3.
  destruct (lookup (ustr "ai_agent") d) as [ai |]; cbn [bind].
  - destruct ai as [| b | z | s | l | a]; try discriminate.
    unfold py_get at 1; destruct (lookup (ustr "actor") a) as [actor |];
      cbn [bind].
    + destruct actor as [| b | z | s | l | t]; try discriminate; intros _.
      * unfold py_or, py_get; cbn [truthy bind].
        destruct (lookup (ustr "id") a); eexists; reflexivity.
      * unfold py_or, py_get; destruct (truthy (PDict t)); cbn [bind];
          [destruct (lookup (ustr "id") t) | destruct (lookup (ustr "id") a)];
          eexists; reflexivity.
    + intros _; unfold py_or, py_get; cbn [truthy bind].
      destruct (lookup (ustr "id") a); eexists; reflexivity.
  - intros _; eexists; reflexivity.
Qed.

(** With agent metadata of the data model's shape, a conversation whose
    part sequence is empty gives two empty transcripts. *)
Lemma split_no_parts (conv : pyval) :
  agent_metadata_ok conv = true ->
  split_parts conv = Ok [] ->
  split html5 cap conv = Ok ([], []).
Proof.
  intros Hmeta Hparts; unfold split.
  destruct (split_fin_id_returns conv Hmeta) as [fin_id Hfin].
  rewrite Hfin, Hparts; reflexivity.
Qed.

(** C7 at a conversation whose agent metadata is [null]: its part sequence
    is empty, and [split] raises [AttributeError] instead of returning two
    empty transcripts.  The agent id is computed before the parts are read,
    and [conv.get("ai_agent", {})] is [None] there. *)
Theorem split_no_parts_null_agent :
  split_parts detail_null_agent_no_parts = Ok [] /\
  split_fin_id detail_null_agent_no_parts = Raise AttributeError /\
  split html5 cap detail_null_agent_no_parts = Raise AttributeError.
Proof. repeat split; reflexivity. Qed.

(** C8, scenario A: one root message of a contact with body
    ["<p>Hi</p>"] and no parts gives the user transcript ["Hi"] and the
    full transcript ["[User] Hi"], wherever the root is found and whether
    the list of parts is absent or empty. *)
Theorem split_scenario_A (with_parts : bool) :
  split html5 cap (detail_A "conversation_message" with_parts) =
    Ok (ustr "Hi", ustr "[User] Hi") /\
  split html5 cap (detail_A "source" with_parts) =
    Ok (ustr "Hi", ustr "[User] Hi").
Proof.
  destruct with_parts; split; vm_compute; reflexivity.
Qed.

(** C4 at a conversation whose agent metadata is [null]: [split] raises
    [AttributeError]. *)
Theorem split_null_agent_raises :
  split html5 cap detail_null_agent = Raise AttributeError.
Proof. reflexivity. Qed.

(** A conversation without agent metadata, root message or parts gives
    two empty transcripts. *)
Lemma split_missing_fields (d : list (str * pyval)) :
  lookup (ustr "ai_agent") d = None ->
  lookup (ustr "conversation_message") d = None ->
  lookup (ustr "source") d = None ->
  lookup (ustr "conversation_parts") d = None ->
  split html5 cap (PDict d) = Ok ([], []).
Proof.
  intros Hai Hcm Hsrc Hcp.
  unfold split, split_fin_id, split_parts, py_get, py_or.
  rewrite Hai, Hcm, Hsrc, Hcp; reflexivity.
Qed.

(** C3 at a conversation handed off at timestamp 0: the cutoff is 0 and
    the message of timestamp 5, which is not before it, is in both
    transcripts. *)
Theorem split_epoch_handoff_leaks :
  (parts <- split_parts detail_epoch_handoff ;; first_assignment parts) =
    Ok (PInt 0) /\
  split html5 cap detail_epoch_handoff = Ok (ustr "late", ustr "[User] late").
Proof. split; vm_compute; reflexivity. Qed.

(** *** The loop *)

Lemma truncates_falsy (cutoff p : pyval) :
  truthy cutoff = false ->
  truncates cutoff p =
  (ts <- py_get p (ustr "created_at") PNone ;; Ok false).
Proof.
  intros H; unfold truncates; rewrite H.
  destruct (py_get p (ustr "created_at") PNone); reflexivity.
Qed.

(** A message with timestamp 0 passes the test whatever the cutoff. *)
Lemma truncates_zero (cutoff p : pyval) :
  py_get p (ustr "created_at") PNone = Ok (PInt 0) ->
  truncates cutoff p = Ok false.
Proof.
  intros H; unfold truncates; rewrite H; simpl.
  destruct (truthy cutoff); reflexivity.
Qed.

(** Between integers different from 0 the test is [ts >= cutoff]. *)
Lemma truncates_int (cutoff ts : Z) (p : pyval) :
  py_get p (ustr "created_at") PNone = Ok (PInt ts) ->
  cutoff <> 0%Z -> ts <> 0%Z ->
  truncates (PInt cutoff) p = Ok (Z.leb cutoff ts).
Proof.
  intros H Hc Ht; unfold truncates; rewrite H; simpl.
  destruct (Z.eqb_spec cutoff 0) as [E | _]; [contradiction |].
  destruct (Z.eqb_spec ts 0) as [E | _]; [contradiction |].
  reflexivity.
Qed.

Lemma split_loop_falsy_cutoff (fin_id cutoff : pyval) (parts : list pyval)
    (acc : lines) :
  truthy cutoff = false ->
  split_loop html5 cap fin_id cutoff parts acc =
  process_all html5 cap fin_id parts acc.
Proof.
  intros H; revert acc; induction parts as [| p rest IH]; intros acc; simpl.
  - reflexivity.
  - rewrite (truncates_falsy _ _ H).
    destruct p; try reflexivity; simpl.
    destruct (lookup (ustr "created_at") d); simpl;
      destruct (part_lines html5 cap fin_id (PDict d) acc); simpl;
      auto.
Qed.

(** The loop stops at the first part that meets the test: nothing of that
    part or of a later one reaches the accumulators. *)
Lemma split_loop_truncated (fin_id cutoff p : pyval)
    (before after : list pyval) (acc : lines) :
  truncates cutoff p = Ok true ->
  split_loop html5 cap fin_id cutoff (before ++ p :: after) acc =
  split_loop html5 cap fin_id cutoff before acc.
Proof.
  intros H; revert acc; induction before as [| q rest IH]; intros acc; simpl.
  - rewrite H; reflexivity.
  - destruct (truncates cutoff q) as [[|] | e]; simpl; try reflexivity.
    destruct (part_lines html5 cap fin_id q acc); simpl; auto.
Qed.

(** With a cutoff and a timestamp that are integers different from 0,
    [split] returns the transcripts of the parts before the first part at
    or after the cutoff. *)
Lemma split_truncated (conv fin_id p : pyval) (cutoff ts : Z)
    (before after : list pyval) :
  split_fin_id conv = Ok fin_id ->
  split_parts conv = Ok (before ++ p :: after) ->
  first_assignment (before ++ p :: after) = Ok (PInt cutoff) ->
  py_get p (ustr "created_at") PNone = Ok (PInt ts) ->
  cutoff <> 0%Z -> ts <> 0%Z -> (cutoff <= ts)%Z ->
  split html5 cap conv =
  transcripts (split_loop html5 cap fin_id (PInt cutoff) before ([], [])).
Proof.
  intros Hfin Hparts Hcut Hts Hc Ht Hle; unfold split, transcripts.
  rewrite Hfin, Hparts; simpl; rewrite Hcut; simpl.
  rewrite split_loop_truncated; [reflexivity |].
  rewrite (truncates_int cutoff ts p Hts Hc Ht).
  apply Z.leb_le in Hle; rewrite Hle; reflexivity.
Qed.

(** C10: when the first assignment that carries a timestamp carries 0,
    [split] returns what processing every part returns; and a part whose
    own timestamp is 0 is processed, and the loop goes on after it,
    whatever the cutoff. *)
Theorem split_zero_timestamps (conv fin_id cutoff p : pyval)
    (parts rest : list pyval) (acc : lines) :
  split_fin_id conv = Ok fin_id ->
  split_parts conv = Ok parts ->
  first_assignment parts = Ok (PInt 0) ->
  py_get p (ustr "created_at") PNone = Ok (PInt 0) ->
  split html5 cap conv =
    transcripts (process_all html5 cap fin_id parts ([], [])) /\
  split_loop html5 cap fin_id cutoff (p :: rest) acc =
    (acc' <- part_lines html5 cap fin_id p acc ;;
     split_loop html5 cap fin_id cutoff rest acc').
Proof.
  intros Hfin Hparts Hcut Hts; split.
  - unfold split, transcripts; rewrite Hfin, Hparts; simpl.
    rewrite Hcut; simpl.
    rewrite split_loop_falsy_cutoff by reflexivity; reflexivity.
  - simpl; rewrite (truncates_zero _ _ Hts); reflexivity.
Qed.

(** *** Scenario B *)

Lemma strip_html_hello :
  html5 (ustr "amp;") = Some [AMP] ->
  strip_html html5 cap (text "Hello&amp;") = Ok (ustr "Hello&").
Proof.
  intros H; vm_compute in H; vm_compute; rewrite H; reflexivity.
Qed.

Lemma part_lines_agent_B (fin_id : pyval) (acc : lines) :
  html5 (ustr "amp;") = Some [AMP] ->
  part_lines html5 cap fin_id agent_B acc =
  Ok (fst acc, snd acc ++ [ustr "[Fin]  Hello&"]).
Proof.
  intros H; unfold part_lines.
  change (py_get agent_B (ustr "body") (PStr [])) with (Ok (text "Hello&amp;")).
  cbn [bind]; rewrite (strip_html_hello H); reflexivity.
Qed.

(** C2, scenario B as amended: the cutoff is 100, the transcripts do not
    depend on the human reply, the user transcript is empty and the full
    transcript is ["[Fin]  Hello&"], the tag followed by two spaces. *)
Theorem split_scenario_B (fields : list (str * pyval)) :
  html5 (ustr "amp;") = Some [AMP] ->
  (parts <- split_parts (detail_B fields) ;; first_assignment parts) =
    Ok (PInt 100) /\
  split html5 cap (detail_B fields) = Ok ([], ustr "[Fin]  Hello&").
Proof.
  intros H; split; [reflexivity |].
  unfold split.
  change (split_fin_id (detail_B fields)) with (Ok PNone).
  change (split_parts (detail_B fields)) with (Ok (parts_B fields)).
  cbn [bind].
  change (first_assignment (parts_B fields)) with (Ok (PInt 100)).
  cbn [bind].
  change (parts_B fields) with ([agent_B] ++ assignment_B :: [human_B fields]).
  rewrite split_loop_truncated by reflexivity.
  cbn [split_loop].
  change (truncates (PInt 100) agent_B) with (Ok false).
  cbn [bind]; rewrite (part_lines_agent_B _ _ H); reflexivity.
Qed.

(** *** Classification *)

Lemma py_get_dict (d : list (str * pyval)) (k : string) (dflt : pyval) :
  py_get (PDict d) (ustr k) dflt =
  Ok (match field k (PDict d) with Some x => x | None => dflt end).
Proof.
  unfold py_get, field; destruct (lookup (ustr k) d); reflexivity.
Qed.

Lemma py_contains_dict (d : list (str * pyval)) (k : string) :
  py_contains (PDict d) (ustr k) = Ok (has_field k (PDict d)).
Proof. reflexivity. Qed.




End SplitterFacts.

Lemma split_no_parts_witness :
  split html5_reserved 4300 detail_empty = Ok ([], []).
Proof.
  apply (split_no_parts html5_reserved 4300 detail_empty); reflexivity.
Defined.

Lemma split_zero_timestamps_witness :
  split html5_reserved 4300 detail_epoch_handoff =
    Ok (ustr "late", ustr "[User] late") /\
  split_loop html5_reserved 4300 PNone (PInt 100)
    [obj [("created_at", PInt 0); ("body", text "early");
          ("author", obj [("type", text "lead")])]%string;
     late_message] ([], []) =
    Ok ([ustr "early"; ustr "late"], [ustr "[User] early"; ustr "[User] late"]).
Proof.
  pose proof
    (split_zero_timestamps html5_reserved 4300 detail_epoch_handoff PNone
       (PInt 100)
       (obj [("created_at", PInt 0); ("body", text "early");
             ("author", obj [("type", text "lead")])]%string)
       [obj [("part_type", text "assignment"); ("created_at", PInt 0)]%string;
        late_message]
       [late_message] ([], [])
       eq_refl eq_refl eq_refl eq_refl) as [H1 H2].
  split.
  - rewrite H1; reflexivity.
  - rewrite H2; reflexivity.
Defined.

Lemma split_scenario_B_witness :
  split html5_reserved 4300 (detail_B admin_reply) =
    Ok ([], ustr "[Fin]  Hello&").
Proof.
  apply (split_scenario_B html5_reserved 4300 admin_reply); reflexivity.
Defined.

(** C2 as stated fails: the full transcript of scenario B is not
    ["[Fin] Hello&"] with a single space. *)
Lemma split_scenario_B_single_space :
  ~ (exists user_txt,
       split html5_reserved 4300 (detail_B admin_reply) =
       Ok (user_txt, ustr "[Fin] Hello&")).
Proof.
  intros [u H]; vm_compute in H; discriminate H.
Qed.


(** ** The collection pipeline *)

Lemma key_of_hashable (v : pyval) :
  hashable v = true -> exists k, key_of v = Some k.
Proof.
  destruct v as [| [|] | z | s | l | d]; simpl; intros H;
    try discriminate H; eexists; reflexivity.
Qed.

(** On hashable values [==] is the equality of keys. *)
Lemma py_eq_key (a b : pyval) (k : key) :
  key_of a = Some k -> (py_eq a b = true <-> key_of b = Some k).
Proof.
  destruct a as [| [|] | z | s | l | d]; cbn [key_of]; intros H;
    try discriminate H; injection H as <-;
    destruct b as [| [|] | z' | s' | l' | d']; cbn [py_eq as_int key_of];
    split; intros H; try discriminate H; try reflexivity;
    try (apply Z.eqb_eq in H; subst; reflexivity);
    try (apply str_eqb_eq in H; subst; reflexivity);
    try (injection H as H; subst; first [apply Z.eqb_refl | apply str_eqb_refl]).
Qed.

Lemma py_eq_sym (a b : pyval) :
  hashable a = true -> py_eq a b = true -> py_eq b a = true.
Proof.
  intros Ha H.
  destruct (key_of_hashable a Ha) as [k Hk].
  apply (py_eq_key a b k Hk) in H.
  apply (py_eq_key b a k H); exact Hk.
Qed.

Lemma py_eq_trans (a b c : pyval) :
  hashable a = true -> py_eq a b = true -> py_eq b c = true ->
  py_eq a c = true.
Proof.
  intros Ha Hab Hbc.
  destruct (key_of_hashable a Ha) as [k Hk].
  apply (py_eq_key a c k Hk).
  apply (py_eq_key a b k Hk) in Hab.
  apply (py_eq_key b c k Hab); exact Hbc.
Qed.

Lemma py_eq_hashable (a b : pyval) :
  hashable a = true -> py_eq a b = true -> hashable b = true.
Proof.
  intros Ha H.
  destruct (key_of_hashable a Ha) as [k Hk].
  apply (py_eq_key a b k Hk) in H.
  destruct b; simpl in *; try reflexivity; discriminate H.
Qed.

Lemma py_in_set_hashable (v : pyval) (seen : list pyval) (b : bool) :
  py_in_set v seen = Ok b -> hashable v = true /\ existsb (py_eq v) seen = b.
Proof.
  unfold py_in_set; destruct (hashable v); intros H;
    [injection H as H; auto | discriminate H].
Qed.

Lemma py_getitem_field (v : pyval) (k : string) (x : pyval) :
  py_getitem v (ustr k) = Ok x <-> field k v = Some x.
Proof.
  unfold py_getitem, field; destruct v; try (split; discriminate).
  destruct (lookup (ustr k) d); split; intros H; try discriminate H;
    injection H as ->; reflexivity.
Qed.

Lemma count_id_app (cid : pyval) (l l' : list pyval) :
  count_id cid (l ++ l') = (count_id cid l + count_id cid l')%nat.
Proof. unfold count_id; rewrite filter_app, length_app; reflexivity. Qed.

Section PipelineFacts.

Variable html5 : str -> option str.
Variable cap : N.
Variable World : Type.
Variable fetch_full : pyval -> World -> result pyval * World.
Variable utc_isoformat : pyval -> result str.

Lemma ingest_outcome (s : pyval) (st : run World) :
  outcome s st
    (fst (ingest html5 cap fetch_full utc_isoformat s st))
    (snd (ingest html5 cap fetch_full utc_isoformat s st)).
Proof.
  unfold ingest, bindM, lift, in_seen, seen_add, call_fetch_full,
    user_rows_append, convo_rows_append, ret.
  destruct (py_getitem s (ustr "id")) as [cid | e] eqn:Hid;
    [| apply Failed; reflexivity].
  apply py_getitem_field in Hid.
  destruct (py_in_set cid (seen st)) as [[|] | e] eqn:Hin;
    [ apply (Skipped s st cid Hid Hin) | | apply Failed; reflexivity ].
  cbn [world seen user_rows convo_rows].
  destruct (fetch_full cid (world st)) as [[conv | e] w];
    [| apply Failed; reflexivity].
  destruct (split html5 cap conv) as [txt | e];
    [| apply Failed; reflexivity].
  destruct (t <- py_getitem s (ustr "created_at") ;; utc_isoformat t)
    as [iso | e]; [| apply Failed; reflexivity].
  destruct (ai <- py_getitem s (ustr "ai_agent") ;;
            py_get ai (ustr "rating") PNone) as [rating | e];
    [| apply Failed; reflexivity].
  cbn [fst snd world seen user_rows convo_rows].
  apply (Added s st cid rating iso (fst txt) (snd txt) w Hid Hin).
Qed.

(** *** The two row lists go together *)

Lemma rows_same_fields (cid rating : pyval) (iso user_txt full_txt : str) :
  same_summary_fields (user_row cid iso rating user_txt)
                      (convo_row cid iso rating full_txt).
Proof.
  exists cid, (PStr iso), rating; repeat split; reflexivity.
Qed.

Lemma ingest_keeps_pairs (s : pyval) (st : run World) :
  Forall2 same_summary_fields (user_rows st) (convo_rows st) ->
  Forall2 same_summary_fields
    (user_rows (snd (ingest html5 cap fetch_full utc_isoformat s st)))
    (convo_rows (snd (ingest html5 cap fetch_full utc_isoformat s st))).
Proof.
  intros H; pose proof (ingest_outcome s st) as Hout.
  destruct (ingest html5 cap fetch_full utc_isoformat s st) as [r st'].
  simpl in *.
  inversion Hout as [cid Hid Hin | e st0 Hu Hc
                    | cid rating iso utxt ftxt w Hid Hin]; subst; simpl.
  - exact H.
  - rewrite Hu, Hc; exact H.
  - apply Forall2_app; [exact H |].
    constructor; [apply rows_same_fields | constructor].
Qed.

Lemma ingest_all_cons (c : pyval) (rest : list pyval) (st : run World) :
  ingest_all html5 cap fetch_full utc_isoformat (c :: rest) st =
  match ingest html5 cap fetch_full utc_isoformat c st with
  | (Ok _, st') => ingest_all html5 cap fetch_full utc_isoformat rest st'
  | (Raise e, st') => (Raise e, st')
  end.
Proof. reflexivity. Qed.

Lemma ingest_all_keeps_pairs (summaries : list pyval) (st : run World) :
  Forall2 same_summary_fields (user_rows st) (convo_rows st) ->
  Forall2 same_summary_fields
    (user_rows (snd (ingest_all html5 cap fetch_full utc_isoformat summaries st)))
    (convo_rows (snd (ingest_all html5 cap fetch_full utc_isoformat summaries st))).
Proof.
  revert st; induction summaries as [| c rest IH]; intros st H.
  - exact H.
  - rewrite ingest_all_cons.
    pose proof (ingest_keeps_pairs c st H) as Hc.
    destruct (ingest html5 cap fetch_full utc_isoformat c st) as [[u | e] st'];
      simpl in Hc; [apply IH; exact Hc | exact Hc].
Qed.

Lemma pairs_aligned (users convos : list pyval) :
  Forall2 same_summary_fields users convos -> rows_aligned users convos.
Proof.
  intros H; split.
  - apply (Forall2_length H).
  - induction H as [| u c us cs Huc _ IH]; intros i u' c' Hu Hc.
    + destruct i; discriminate Hu.
    + destruct i as [| i]; simpl in Hu, Hc.
      * injection Hu as <-; injection Hc as <-; exact Huc.
      * apply (IH i u' c' Hu Hc).
Qed.

Lemma ingest_all_app (first second : list pyval) (st : run World) :
  ingest_all html5 cap fetch_full utc_isoformat (first ++ second) st =
  bindM (ingest_all html5 cap fetch_full utc_isoformat first)
        (fun _ => ingest_all html5 cap fetch_full utc_isoformat second) st.
Proof.
  revert st; induction first as [| c rest IH]; intros st.
  - reflexivity.
  - simpl app; rewrite ingest_all_cons; unfold bindM at 1.
    rewrite ingest_all_cons.
    destruct (ingest html5 cap fetch_full utc_isoformat c st)
      as [[u | e] st']; [| reflexivity].
    rewrite IH; reflexivity.
Qed.

(** The run is one sequence of calls of [ingest]: the summaries of the
    first search, then those of the second. *)
Lemma collect_calls (escalated low_csat : list pyval) (st : run World) :
  collect html5 cap fetch_full utc_isoformat escalated low_csat st =
  ingest_all html5 cap fetch_full utc_isoformat (escalated ++ low_csat) st.
Proof. unfold collect; rewrite ingest_all_app; reflexivity. Qed.

(** C9: after each call of [ingest] in a run, that is after the first [k]
    of its calls for every [k], [user_rows] and [convo_rows] have the same
    length and, at every index, the same [id], [created_at] and [rating];
    this holds after a call that raised as well. *)
Theorem rows_stay_aligned (escalated low_csat : list pyval) (k : nat)
    (w : World) :
  rows_aligned
    (user_rows (snd (ingest_all html5 cap fetch_full utc_isoformat
                       (firstn k (escalated ++ low_csat)) (start w))))
    (convo_rows (snd (ingest_all html5 cap fetch_full utc_isoformat
                        (firstn k (escalated ++ low_csat)) (start w)))).
Proof.
  apply pairs_aligned, ingest_all_keeps_pairs; constructor.
Qed.

(** *** One row for each identifier *)

Lemma count_id_user_row (cid c rating : pyval) (iso txt : str) :
  count_id cid [user_row c iso rating txt] =
  if py_eq c cid then 1%nat else 0%nat.
Proof.
  unfold count_id; simpl.
  change (has_id cid (user_row c iso rating txt)) with (py_eq c cid).
  destruct (py_eq c cid); reflexivity.
Qed.

Lemma count_id_convo_row (cid c rating : pyval) (iso txt : str) :
  count_id cid [convo_row c iso rating txt] =
  if py_eq c cid then 1%nat else 0%nat.
Proof.
  unfold count_id; simpl.
  change (has_id cid (convo_row c iso rating txt)) with (py_eq c cid).
  destruct (py_eq c cid); reflexivity.
Qed.

(** Appending one row of a new identifier keeps the rows in step with
    [seen]. *)
Lemma rows_follow_seen_add (seen rows : list pyval) (c row : pyval) :
  (forall cid, count_id cid [row] = if py_eq c cid then 1%nat else 0%nat) ->
  hashable c = true ->
  existsb (py_eq c) seen = false ->
  rows_follow_seen seen rows ->
  rows_follow_seen (c :: seen) (rows ++ [row]).
Proof.
  intros Hrow Hc Hnew Hrows cid Hcid.
  rewrite count_id_app, Hrow, (Hrows cid Hcid); simpl.
  destruct (py_eq c cid) eqn:E.
  - rewrite (py_eq_sym c cid Hc E); simpl.
    destruct (existsb (py_eq cid) seen) eqn:E2; [| reflexivity].
    apply existsb_exists in E2; destruct E2 as [x [Hx Hcx]].
    assert (existsb (py_eq c) seen = true) as Hold.
    { apply existsb_exists; exists x; split; [exact Hx |].
      apply (py_eq_trans c cid x Hc E Hcx). }
    rewrite Hold in Hnew; discriminate Hnew.
  - destruct (py_eq cid c) eqn:E2.
    + rewrite (py_eq_sym cid c Hcid E2) in E; discriminate E.
    + simpl; apply Nat.add_0_r.
Qed.

Lemma extends_refl (st : run World) : extends st st.
Proof.
  split; [auto | split; exists []; symmetry; apply app_nil_r].
Qed.

Lemma extends_trans (st1 st2 st3 : run World) :
  extends st1 st2 -> extends st2 st3 -> extends st1 st3.
Proof.
  intros [Hs [[u Hu] [c Hc]]] [Hs' [[u' Hu'] [c' Hc']]].
  split; [auto | split].
  - exists (u ++ u'); rewrite Hu', Hu, app_assoc; reflexivity.
  - exists (c ++ c'); rewrite Hc', Hc, app_assoc; reflexivity.
Qed.

(** A call that returns keeps the run consistent, and has seen the
    identifier of its summary. *)
Lemma ingest_returns (s : pyval) (st st' : run World) :
  ingest html5 cap fetch_full utc_isoformat s st = (Ok tt, st') ->
  consistent st ->
  consistent st' /\ extends st st' /\
  exists c, field "id" s = Some c /\ hashable c = true /\
            existsb (py_eq c) (seen st') = true.
Proof.
  intros Hrun [Hu [Hc Hseen]]; pose proof (ingest_outcome s st) as Hout.
  rewrite Hrun in Hout; simpl in Hout.
  inversion Hout as [cid Hid Hin | | cid rating iso utxt ftxt w Hid Hin];
    subst; apply py_in_set_hashable in Hin; destruct Hin as [Hh Hin].
  - split; [repeat split; assumption |].
    split; [apply extends_refl |].
    exists cid; auto.
  - split; [| split].
    + unfold consistent; simpl; repeat split.
      * apply rows_follow_seen_add; auto; intros; apply count_id_user_row.
      * apply rows_follow_seen_add; auto; intros; apply count_id_convo_row.
      * constructor; assumption.
    + split; simpl; [| split; eexists; reflexivity].
      intros c H; rewrite H; apply orb_true_r.
    + exists cid; simpl; split; [exact Hid | split; [exact Hh |]].
      assert (py_eq cid cid = true) as ->; [| reflexivity].
      destruct (key_of_hashable cid Hh) as [k Hk].
      apply (py_eq_key cid cid k Hk); exact Hk.
Qed.

Lemma ingest_all_returns (summaries : list pyval) (st st' : run World) :
  ingest_all html5 cap fetch_full utc_isoformat summaries st = (Ok tt, st') ->
  consistent st ->
  consistent st' /\ extends st st' /\
  forall s, In s summaries ->
    exists c, field "id" s = Some c /\ hashable c = true /\
              existsb (py_eq c) (seen st') = true.
Proof.
  revert st; induction summaries as [| c rest IH]; intros st Hrun Hst.
  - injection Hrun as <-.
    split; [exact Hst | split; [apply extends_refl | intros s []]].
  - rewrite ingest_all_cons in Hrun.
    destruct (ingest html5 cap fetch_full utc_isoformat c st)
      as [[[] | e] st1] eqn:Hc; [| discriminate Hrun].
    destruct (ingest_returns c st st1 Hc Hst) as [Hst1 [Hext1 Hseen1]].
    destruct (IH st1 Hrun Hst1) as [Hst' [Hext' Hseen']].
    split; [exact Hst' | split; [apply (extends_trans _ _ _ Hext1 Hext') |]].
    intros s [<- | Hs]; [| apply Hseen'; exact Hs].
    destruct Hseen1 as [x [Hx [Hh Hin]]].
    exists x; split; [exact Hx | split; [exact Hh |]].
    apply (proj1 Hext'); exact Hin.
Qed.

Lemma start_consistent (w : World) : consistent (start w).
Proof.
  unfold consistent; simpl; repeat split; try constructor;
    intros cid _; reflexivity.
Qed.

(** An identifier that a list of ingested summaries carries has exactly one
    row in each list. *)
Lemma ingested_once (summaries : list pyval) (st : run World) (cid : pyval) :
  consistent st ->
  (forall s, In s summaries ->
     exists c, field "id" s = Some c /\ hashable c = true /\
               existsb (py_eq c) (seen st) = true) ->
  existsb (has_id cid) summaries = true ->
  count_id cid (user_rows st) = 1%nat /\ count_id cid (convo_rows st) = 1%nat.
Proof.
  intros [Hu [Hc _]] Hall Hcid.
  apply existsb_exists in Hcid; destruct Hcid as [s [Hs Hsid]].
  destruct (Hall s Hs) as [c [Hf [Hh Hin]]].
  unfold has_id in Hsid; rewrite Hf in Hsid.
  pose proof (py_eq_hashable c cid Hh Hsid) as Hhc.
  assert (existsb (py_eq cid) (seen st) = true) as Hseen.
  { apply existsb_exists in Hin; destruct Hin as [x [Hx Hcx]].
    apply existsb_exists; exists x; split; [exact Hx |].
    apply (py_eq_trans cid c x Hhc (py_eq_sym c cid Hh Hsid) Hcx). }
  rewrite (Hu cid Hhc), (Hc cid Hhc), Hseen; split; reflexivity.
Qed.

Lemma existsb_first {A : Type} (f : A -> bool) (l : list A) :
  existsb f l = true ->
  exists before x after,
    l = before ++ x :: after /\ existsb f before = false /\ f x = true.
Proof.
  induction l as [| a l IH]; simpl; intros H; [discriminate H |].
  destruct (f a) eqn:Ha.
  - exists [], a, l; auto.
  - destruct (IH H) as [before [x [after [-> [Hb Hx]]]]].
    exists (a :: before), x, after; simpl; rewrite Ha; auto.
Qed.

Lemma ingest_all_app_returns (first second : list pyval)
    (st st' : run World) :
  ingest_all html5 cap fetch_full utc_isoformat (first ++ second) st =
    (Ok tt, st') ->
  exists mid,
    ingest_all html5 cap fetch_full utc_isoformat first st = (Ok tt, mid) /\
    ingest_all html5 cap fetch_full utc_isoformat second mid = (Ok tt, st').
Proof.
  rewrite ingest_all_app; unfold bindM; intros H.
  destruct (ingest_all html5 cap fetch_full utc_isoformat first st)
    as [[[] | e] mid]; [| discriminate H].
  exists mid; auto.
Qed.

(** What is in [seen] after a list of calls was there before or is the
    identifier of one of the summaries. *)
Lemma seen_comes_from (summaries : list pyval) (st st' : run World) :
  ingest_all html5 cap fetch_full utc_isoformat summaries st = (Ok tt, st') ->
  forall x, In x (seen st') ->
    In x (seen st) \/ exists s, In s summaries /\ field "id" s = Some x.
Proof.
  revert st; induction summaries as [| c rest IH]; intros st Hrun x Hx.
  - injection Hrun as <-; left; exact Hx.
  - rewrite ingest_all_cons in Hrun.
    destruct (ingest html5 cap fetch_full utc_isoformat c st)
      as [[[] | e] st1] eqn:Hc; [| discriminate Hrun].
    pose proof (ingest_outcome c st) as Hout.
    rewrite Hc in Hout; simpl in Hout.
    destruct (IH st1 Hrun x Hx) as [Hin | [s [Hs Hf]]];
      [| right; exists s; split; [right; exact Hs | exact Hf]].
    inversion Hout as [cid Hid Hch | | cid rating iso utxt ftxt w Hid Hch];
      subst.
    + left; exact Hin.
    + destruct Hin as [<- | Hin]; [| left; exact Hin].
      right; exists c; split; [left; reflexivity | exact Hid].
Qed.

(** The first summary that carries [cid] is the one whose call appends the
    rows. *)
Lemma first_discovery (summaries : list pyval) (w : World)
    (st : run World) (cid : pyval) :
  ingest_all html5 cap fetch_full utc_isoformat summaries (start w) =
    (Ok tt, st) ->
  existsb (has_id cid) summaries = true ->
  discovered_in html5 cap fetch_full utc_isoformat summaries w cid.
Proof.
  intros Hrun Hcid.
  destruct (existsb_first _ _ Hcid) as [before [s [after [-> [Hnot Hs]]]]].
  destruct (ingest_all_app_returns _ _ _ _ Hrun) as [mid [Hbefore Hrest]].
  rewrite ingest_all_cons in Hrest.
  destruct (ingest html5 cap fetch_full utc_isoformat s mid)
    as [[[] | e] st1] eqn:Hcall; [| discriminate Hrest].
  pose proof (ingest_outcome s mid) as Hout.
  rewrite Hcall in Hout; simpl in Hout.
  unfold has_id in Hs.
  inversion Hout as [c Hid Hch | | c rating iso utxt ftxt w' Hid Hch]; subst;
    rewrite Hid in Hs; apply py_in_set_hashable in Hch;
    destruct Hch as [Hh Hch].
  - exfalso.
    apply existsb_exists in Hch; destruct Hch as [x [Hx Hcx]].
    destruct (seen_comes_from before (start w) st1 Hbefore x Hx)
      as [[] | [s' [Hs' Hf]]].
    assert (existsb (has_id cid) before = true) as Hyes.
    { apply existsb_exists; exists s'; split; [exact Hs' |].
      unfold has_id; rewrite Hf.
      pose proof (py_eq_hashable c x Hh Hcx) as Hhx.
      apply (py_eq_trans x c cid Hhx (py_eq_sym c x Hh Hcx) Hs). }
    rewrite Hyes in Hnot; discriminate Hnot.
  - exists before, s, after, mid; eexists; exists c, rating, iso, utxt, ftxt.
    repeat split; try eassumption; reflexivity.
Qed.

(** C6: an identifier carried by a summary of both searches has, when the
    run completes, exactly one row in [user_rows] and one in [convo_rows].
    Both are there once the first search is drained, appended by the call
    on the first summary of that search that carries the identifier, and
    the second search appends no row for it. *)
Theorem collect_reports_once (escalated low_csat : list pyval) (w : World)
    (st2 : run World) (cid : pyval) :
  collect html5 cap fetch_full utc_isoformat escalated low_csat (start w) =
    (Ok tt, st2) ->
  existsb (has_id cid) escalated = true ->
  existsb (has_id cid) low_csat = true ->
  count_id cid (user_rows st2) = 1%nat /\
  count_id cid (convo_rows st2) = 1%nat /\
  discovered_in html5 cap fetch_full utc_isoformat escalated w cid /\
  exists st1 later_users later_convos,
    ingest_all html5 cap fetch_full utc_isoformat escalated (start w) =
      (Ok tt, st1) /\
    count_id cid (user_rows st1) = 1%nat /\
    count_id cid (convo_rows st1) = 1%nat /\
    user_rows st2 = user_rows st1 ++ later_users /\
    convo_rows st2 = convo_rows st1 ++ later_convos /\
    count_id cid later_users = 0%nat /\
    count_id cid later_convos = 0%nat.
Proof.
  unfold collect, bindM; intros Hrun Hesc Hlow.
  destruct (ingest_all html5 cap fetch_full utc_isoformat escalated (start w))
    as [[[] | e] st1] eqn:H1; [| discriminate Hrun].
  destruct (ingest_all_returns escalated (start w) st1 H1 (start_consistent w))
    as [Hst1 [_ Hseen1]].
  destruct (ingest_all_returns low_csat st1 st2 Hrun Hst1)
    as [Hst2 [[_ [[lu Hlu] [lc Hlc]]] Hseen2]].
  destruct (ingested_once escalated st1 cid Hst1 Hseen1 Hesc) as [Hu1 Hc1].
  destruct (ingested_once low_csat st2 cid Hst2 Hseen2 Hlow) as [Hu2 Hc2].
  split; [exact Hu2 | split; [exact Hc2 |]].
  split; [apply (first_discovery escalated w st1 cid H1 Hesc) |].
  exists st1, lu, lc; repeat split; try assumption.
  - rewrite Hlu, count_id_app, Hu1 in Hu2; injection Hu2 as Hu2; exact Hu2.
  - rewrite Hlc, count_id_app, Hc1 in Hc2; injection Hc2 as Hc2; exact Hc2.
Qed.

End PipelineFacts.

Lemma collect_reports_once_witness :
  count_id (text "42")
    (user_rows (snd (collect html5_reserved 4300
                       (fetch_constant (detail_A "source" true))
                       utc_isoformat_int
                       escalated_sample low_csat_sample (start 0%nat)))) = 1%nat.
Proof.
  apply (collect_reports_once html5_reserved 4300 nat
           (fetch_constant (detail_A "source" true)) utc_isoformat_int
           escalated_sample low_csat_sample 0%nat
           (snd (collect html5_reserved 4300
                   (fetch_constant (detail_A "source" true))
                   utc_isoformat_int
                   escalated_sample low_csat_sample (start 0%nat)))
           (text "42")).
  - vm_compute; reflexivity.
  - reflexivity.
  - reflexivity.
Defined.

(** * Further properties *)

(** ** The text normalizer *)

Lemma tag_close_none (s : str) : ~ In GT s -> tag_close s = None.
Proof.
  induction s as [| c r IH]; intros H; simpl; [reflexivity |].
  destruct (N.eqb_spec c GT) as [-> | _].
  - exfalso; apply H; left; reflexivity.
  - rewrite IH; [reflexivity | intros Hin; apply H; right; exact Hin].
Qed.

Lemma tag_close_some (s : str) : In GT s -> tag_close s <> None.
Proof.
  induction s as [| c r IH]; intros H; simpl; [destruct H |].
  destruct (N.eqb_spec c GT) as [-> | Hc]; [discriminate |].
  destruct H as [-> | H]; [contradiction Hc; reflexivity |].
  destruct (tag_close r); [discriminate | contradiction (IH H); reflexivity].
Qed.

(** [TAG_RE] does not match after a ['<'] exactly when nothing follows, a
    ['>'] follows at once, or no ['>'] follows at all. *)
Lemma tag_match_none (s : str) :
  tag_match s = None <->
  s = [] \/ (exists r, s = GT :: r) \/ ~ In GT s.
Proof.
  destruct s as [| c r]; simpl; [split; auto |].
  destruct (N.eqb_spec c GT) as [-> | Hc].
  - split; [intros _; right; left; exists r; reflexivity | reflexivity].
  - split.
    + intros H; right; right; intros [E | Hin]; [congruence |].
      apply (tag_close_some r Hin).
      destruct (tag_close r); [discriminate H | reflexivity].
    + intros [H | [[r' H] | H]]; [discriminate H | congruence |].
      rewrite tag_close_none; [reflexivity |].
      intros Hin; apply H; right; exact Hin.
Qed.

Lemma tag_sub_from_subset (k : nat) (s : str) (x : N) :
  In x (tag_sub_from k s) -> In x s.
Proof.
  revert k; induction s as [| c r IH]; intros k H; [exact H |].
  simpl in H; destruct k as [| k]; [| right; apply (IH k H)].
  destruct (N.eqb c LT).
  - destruct (tag_match r) as [n |]; [right; apply (IH n H) |].
    destruct H as [-> | H]; [left; reflexivity | right; apply (IH O H)].
  - destruct H as [-> | H]; [left; reflexivity | right; apply (IH O H)].
Qed.

Lemma tag_match_none_after_sub (s : str) :
  tag_match s = None -> tag_match (tag_sub_from O s) = None.
Proof.
  intros H; apply tag_match_none in H; apply tag_match_none.
  destruct H as [-> | [[r ->] | H]].
  - left; reflexivity.
  - right; left; exists (tag_sub_from O r); reflexivity.
  - right; right; intros Hin; apply H.
    apply (tag_sub_from_subset O s GT Hin).
Qed.

Lemma tagless_cons (c : N) (s : str) :
  tagless s -> (c = LT -> tag_match s = None) -> tagless (c :: s).
Proof.
  intros Hs Hc before after E.
  destruct before as [| b before']; simpl in E; injection E as E1 E2.
  - subst; apply Hc; reflexivity.
  - apply (Hs before' after E2).
Qed.

Lemma tag_sub_from_tagless (k : nat) (s : str) : tagless (tag_sub_from k s).
Proof.
  revert k; induction s as [| c r IH]; intros k.
  - intros before after E; destruct before; discriminate E.
  - simpl; destruct k as [| k]; [| apply IH].
    destruct (N.eqb_spec c LT) as [-> | Hc].
    + destruct (tag_match r) as [n |] eqn:E; [apply IH |].
      apply tagless_cons; [apply IH |].
      intros _; apply tag_match_none_after_sub; exact E.
    + apply tagless_cons; [apply IH | intros E; contradiction].
Qed.

Lemma tagless_fixed (s : str) : tagless s -> tag_sub s = s.
Proof.
  unfold tag_sub; induction s as [| c r IH]; intros H; [reflexivity |].
  assert (tagless r) as Hr.
  { intros before after E; apply (H (c :: before) after); rewrite E;
      reflexivity. }
  simpl; destruct (N.eqb_spec c LT) as [-> | _].
  - rewrite (H [] r eq_refl), (IH Hr); reflexivity.
  - rewrite (IH Hr); reflexivity.
Qed.

(** X1: removing the tags once removes them all: in the text [TAG_RE.sub]
    returns, no ['<'] opens a match of [TAG_RE], so a second pass returns
    the text unchanged. *)
Theorem tag_sub_idempotent (s : str) :
  tagless (tag_sub s) /\ tag_sub (tag_sub s) = tag_sub s.
Proof.
  split; [apply tag_sub_from_tagless |].
  apply tagless_fixed, tag_sub_from_tagless.
Qed.

Lemma strip_trimmed (s : str) : trimmed (strip s).
Proof.
  split.
  - apply rstrip_no_leading_space, lstrip_no_leading_space.
  - unfold strip, rstrip; rewrite rev_involutive.
    apply lstrip_no_leading_space.
Qed.

Lemma strip_html_Ok (html5 : str -> option str) (cap : N) (t : pyval)
    (y : str) :
  strip_html html5 cap t = Ok y -> exists s, y = strip s.
Proof.
  unfold strip_html; intros H.
  apply bind_Ok in H; destruct H as [t' [_ H]].
  apply bind_Ok in H; destruct H as [s [_ H]].
  apply bind_Ok in H; destruct H as [s' [_ H]].
  injection H as <-; exists s'; reflexivity.
Qed.

(** X2: whatever [strip_html] returns neither begins nor ends with a
    whitespace character. *)
Theorem strip_html_trimmed (html5 : str -> option str) (cap : N) (t : pyval)
    (y : str) :
  strip_html html5 cap t = Ok y -> trimmed y.
Proof.
  intros H; destruct (strip_html_Ok html5 cap t y H) as [s ->].
  apply strip_trimmed.
Qed.

Lemma strip_html_trimmed_witness :
  trimmed (ustr "Hi &  there").
Proof.
  apply (strip_html_trimmed html5_reserved 4300
           (text "  <p>Hi &amp;  there </p> ") (ustr "Hi &  there")).
  reflexivity.
Defined.

(** X3: on a value that is not a string, [strip_html] returns the empty
    string when the value is false ([None], [0], [False], an empty list or
    object) and raises [TypeError] otherwise. *)
Theorem strip_html_not_a_string (html5 : str -> option str) (cap : N)
    (t : pyval) :
  (forall s, t <> PStr s) ->
  strip_html html5 cap t = if truthy t then Raise TypeError else Ok [].
Proof.
  intros H; unfold strip_html, py_or.
  destruct t as [| [|] | z | s | [| x l] | [| kv d]]; try reflexivity.
  - simpl; destruct (Z.eqb z 0); reflexivity.
  - contradiction (H s); reflexivity.
Qed.

Lemma strip_html_not_a_string_witness :
  strip_html html5_reserved 4300 (PInt 7) = Raise TypeError /\
  strip_html html5_reserved 4300 PNone = Ok [].
Proof.
  split.
  - apply (strip_html_not_a_string html5_reserved 4300 (PInt 7)); discriminate.
  - apply (strip_html_not_a_string html5_reserved 4300 PNone); discriminate.
Defined.

(** ** The transcript splitter *)

Section SplitterMore.

Variable html5 : str -> option str.
Variable cap : N.

Lemma lstrip_spaces (s : str) :
  Forall (fun c => isspace c = true) s -> lstrip s = [].
Proof.
  induction 1 as [| c r Hc _ IH]; simpl; [reflexivity |].
  rewrite Hc; exact IH.
Qed.

Lemma strip_html_spaces (s : str) :
  Forall (fun c => isspace c = true) s ->
  strip_html html5 cap (PStr s) = Ok [].
Proof.
  intros H; rewrite strip_html_str.
  assert (forall c, In c s -> isspace c = true) as Hin
    by (apply Forall_forall; exact H).
  rewrite tag_sub_without_lt
    by (intros E; apply Hin in E; discriminate E).
  rewrite unescape_without_amp
    by (intros E; apply Hin in E; discriminate E).
  simpl; unfold strip; rewrite (lstrip_spaces s H); reflexivity.
Qed.

(** X4: a part whose body is absent, [null] or a string of whitespace
    adds nothing to either transcript, whatever its author and its other
    fields. *)
Theorem part_lines_blank_body (fin_id : pyval) (d : list (str * pyval))
    (acc : lines) :
  field "body" (PDict d) = None \/ field "body" (PDict d) = Some PNone \/
  (exists s, field "body" (PDict d) = Some (PStr s) /\
             Forall (fun c => isspace c = true) s) ->
  part_lines html5 cap fin_id (PDict d) acc = Ok acc.
Proof.
  intros H; unfold part_lines; rewrite py_get_dict; cbn [bind].
  destruct H as [-> | [-> | [s [-> Hs]]]]; try reflexivity.
  rewrite (strip_html_spaces s Hs); reflexivity.
Qed.

Lemma first_assignment_step_plain (p : pyval) (rest : list pyval) :
  plain_part p -> first_assignment (p :: rest) = first_assignment rest.
Proof.
  intros [[d ->] H]; unfold is_handoff in H; cbn [first_assignment].
  rewrite py_get_dict; cbn [bind].
  fold (value "part_type" (PDict d)).
  destruct (py_eq (value "part_type" (PDict d)) (PStr (ustr "assignment")));
    [| reflexivity].
  rewrite py_contains_dict; cbn [andb] in H; rewrite H; reflexivity.
Qed.

Lemma first_assignment_none (parts : list pyval) :
  Forall plain_part parts -> first_assignment parts = Ok PNone.
Proof.
  induction 1 as [| p rest Hp _ IH]; [reflexivity |].
  rewrite (first_assignment_step_plain p rest Hp); exact IH.
Qed.

(** X5: [first_assignment] returns the [created_at] of the first part that
    is an assignment with that key; the parts after it are not read, and
    may be anything. *)
Theorem first_assignment_first (before after : list pyval)
    (d : list (str * pyval)) :
  Forall plain_part before ->
  is_handoff (PDict d) = true ->
  first_assignment (before ++ PDict d :: after) =
  Ok (value "created_at" (PDict d)).
Proof.
  intros Hb Hd; induction Hb as [| p rest Hp _ IH].
  - unfold is_handoff in Hd; apply andb_true_iff in Hd; destruct Hd as [Ht Hc].
    cbn [app first_assignment]; rewrite py_get_dict; cbn [bind].
    fold (value "part_type" (PDict d)); rewrite Ht.
    rewrite py_contains_dict, Hc; cbn [bind].
    unfold py_getitem, value, has_field, field in *.
    destruct (lookup (ustr "created_at") d); [reflexivity | discriminate Hc].
  - simpl app; rewrite (first_assignment_step_plain p _ Hp); exact IH.
Qed.

(** X6: when no part marks a hand-off, [split] processes every part of the
    conversation. *)
Theorem split_without_handoff (conv fin_id : pyval) (parts : list pyval) :
  split_fin_id conv = Ok fin_id ->
  split_parts conv = Ok parts ->
  Forall plain_part parts ->
  split html5 cap conv =
  transcripts (process_all html5 cap fin_id parts ([], [])).
Proof.
  intros Hfin Hparts Hplain; unfold split, transcripts.
  rewrite Hfin, Hparts; simpl.
  rewrite (first_assignment_none parts Hplain); simpl.
  rewrite split_loop_falsy_cutoff by reflexivity; reflexivity.
Qed.

(** X7: the transcripts do not depend on the hand-off part or on anything
    after it: two conversations with the same agent id, the same parts
    before a part whose timestamp is at or after the cutoff, and the same
    cutoff, have the same transcripts (cutoff and timestamps being integers
    other than 0). *)
Theorem split_ignores_after_handoff (conv1 conv2 fin_id p1 p2 : pyval)
    (cutoff ts1 ts2 : Z) (before after1 after2 : list pyval) :
  split_fin_id conv1 = Ok fin_id ->
  split_fin_id conv2 = Ok fin_id ->
  split_parts conv1 = Ok (before ++ p1 :: after1) ->
  split_parts conv2 = Ok (before ++ p2 :: after2) ->
  first_assignment (before ++ p1 :: after1) = Ok (PInt cutoff) ->
  first_assignment (before ++ p2 :: after2) = Ok (PInt cutoff) ->
  py_get p1 (ustr "created_at") PNone = Ok (PInt ts1) ->
  py_get p2 (ustr "created_at") PNone = Ok (PInt ts2) ->
  cutoff <> 0%Z -> ts1 <> 0%Z -> ts2 <> 0%Z ->
  (cutoff <= ts1)%Z -> (cutoff <= ts2)%Z ->
  split html5 cap conv1 = split html5 cap conv2.
Proof.
  intros F1 F2 P1 P2 C1 C2 T1 T2 Hc H1 H2 L1 L2.
  rewrite (split_truncated html5 cap conv1 fin_id p1 cutoff ts1 before after1
             F1 P1 C1 T1 Hc H1 L1).
  rewrite (split_truncated html5 cap conv2 fin_id p2 cutoff ts2 before after2
             F2 P2 C2 T2 Hc H2 L2).
  reflexivity.
Qed.

(** What one part does to the accumulators: nothing, or one line of the
    agent, or one line of the customer in both lists. *)
Lemma part_lines_shape (fin_id p : pyval) (acc acc' : lines) :
  part_lines html5 cap fin_id p acc = Ok acc' ->
  acc' = acc \/
  exists body, body <> [] /\ trimmed body /\
    (acc' = (fst acc, snd acc ++ [ustr "[Fin]  " ++ body]) \/
     acc' = (fst acc ++ [body], snd acc ++ [ustr "[User] " ++ body])).
Proof.
  unfold part_lines; intros H.
  apply bind_Ok in H; destruct H as [raw [_ H]].
  apply bind_Ok in H; destruct H as [body [Hbody H]].
  destruct (strip_html_Ok html5 cap raw body Hbody) as [s0 Hs0].
  pose proof (strip_trimmed s0) as Htrim; rewrite <- Hs0 in Htrim.
  clear Hs0 Hbody; rename Htrim into Hbody.
  destruct body as [| c body']; [injection H as <-; left; reflexivity |].
  apply bind_Ok in H; destruct H as [a [_ H]].
  apply bind_Ok in H; destruct H as [[|] [_ H]].
  - injection H as <-; right; exists (c :: body').
    split; [discriminate | split; [exact Hbody | left; reflexivity]].
  - apply bind_Ok in H; destruct H as [aty [_ H]].
    apply bind_Ok in H; destruct H as [[|] [_ H]]; injection H as <-.
    + right; exists (c :: body').
      split; [discriminate | split; [exact Hbody | right; reflexivity]].
    + left; reflexivity.
Qed.

Lemma user_texts_app (l l' : list str) :
  user_texts (l ++ l') = user_texts l ++ user_texts l'.
Proof.
  induction l as [| x l IH]; simpl; [reflexivity |].
  destruct (user_text x); simpl; rewrite IH; reflexivity.
Qed.

(** The accumulators keep their shape through the loop. *)
Lemma split_loop_shape (fin_id cutoff : pyval) (parts : list pyval)
    (acc acc' : lines) :
  split_loop html5 cap fin_id cutoff parts acc = Ok acc' ->
  fst acc = user_texts (snd acc) -> Forall tagged_line (snd acc) ->
  fst acc' = user_texts (snd acc') /\ Forall tagged_line (snd acc').
Proof.
  revert acc; induction parts as [| p rest IH]; intros acc H Hu Ht.
  - injection H as <-; auto.
  - simpl in H; apply bind_Ok in H; destruct H as [[|] [_ H]].
    + injection H as <-; auto.
    + apply bind_Ok in H; destruct H as [acc1 [Hp H]].
      apply (IH acc1 H);
        destruct (part_lines_shape fin_id p acc acc1 Hp)
          as [-> | [body [Hne [Htrim [-> | ->]]]]]; simpl; auto.
      * rewrite user_texts_app, <- Hu; simpl; symmetry; apply app_nil_r.
      * rewrite user_texts_app, <- Hu; reflexivity.
      * apply Forall_app; split; [exact Ht |].
        constructor; [exists body; auto | constructor].
      * apply Forall_app; split; [exact Ht |].
        constructor; [exists body; auto | constructor].
Qed.

(** X8: when the loop of [split] ends, the user lines are the texts of the
    lines of the full transcript tagged [[User]], in the same order: the
    user transcript holds nothing the full transcript lacks. *)
Theorem split_loop_user_lines (fin_id cutoff : pyval) (parts : list pyval)
    (acc : lines) :
  split_loop html5 cap fin_id cutoff parts ([], []) = Ok acc ->
  fst acc = user_texts (snd acc).
Proof.
  intros H.
  apply (split_loop_shape fin_id cutoff parts ([], []) acc H);
    [reflexivity | constructor].
Qed.

(** X9: every line of the full transcript is the tag ["[Fin]  "] or
    ["[User] "] followed by a text that is not empty and has no whitespace
    at either end. *)
Theorem split_loop_lines_tagged (fin_id cutoff : pyval) (parts : list pyval)
    (acc : lines) :
  split_loop html5 cap fin_id cutoff parts ([], []) = Ok acc ->
  Forall tagged_line (snd acc).
Proof.
  intros H.
  apply (split_loop_shape fin_id cutoff parts ([], []) acc H);
    [reflexivity | constructor].
Qed.

End SplitterMore.

Lemma part_lines_blank_body_witness :
  part_lines html5_reserved 4300 PNone
    (PDict [(ustr "body", PStr [32; 10; 160]); (ustr "author", PNone)])
    ([ustr "Hi"], [ustr "[User] Hi"]) =
  Ok ([ustr "Hi"], [ustr "[User] Hi"]).
Proof.
  apply (part_lines_blank_body html5_reserved 4300 PNone
           [(ustr "body", PStr [32; 10; 160]); (ustr "author", PNone)]
           ([ustr "Hi"], [ustr "[User] Hi"])).
  right; right; exists [32; 10; 160]; split; [reflexivity |].
  repeat constructor.
Defined.

Lemma first_assignment_first_witness :
  first_assignment (parts_B admin_reply) = Ok (PInt 100).
Proof.
  apply (first_assignment_first [agent_B] [human_B admin_reply]
           [(ustr "part_type", text "assignment");
            (ustr "created_at", PInt 100)]).
  - constructor; [| constructor].
    split; [eexists; reflexivity | reflexivity].
  - reflexivity.
Defined.

Lemma split_without_handoff_witness :
  split html5_reserved 4300 (detail_A "source" true) =
  Ok (ustr "Hi", ustr "[User] Hi").
Proof.
  rewrite (split_without_handoff html5_reserved 4300 (detail_A "source" true)
             PNone [root_A]).
  - reflexivity.
  - reflexivity.
  - reflexivity.
  - constructor; [| constructor].
    split; [eexists; reflexivity | reflexivity].
Defined.

Lemma split_ignores_after_handoff_witness :
  split html5_reserved 4300 (detail_B admin_reply) =
  split html5_reserved 4300 (detail_B []).
Proof.
  apply (split_ignores_after_handoff html5_reserved 4300
           (detail_B admin_reply) (detail_B []) PNone
           assignment_B assignment_B 100 100 100
           [agent_B] [human_B admin_reply] [human_B []]);
    try reflexivity; try discriminate.
Defined.

Lemma split_loop_user_lines_witness :
  [ustr "Hi"] = user_texts [ustr "[User] Hi"; ustr "[Fin]  Hello&"].
Proof.
  apply (split_loop_user_lines html5_reserved 4300 PNone PNone
           [root_A; agent_B]
           ([ustr "Hi"], [ustr "[User] Hi"; ustr "[Fin]  Hello&"])).
  reflexivity.
Defined.

Lemma split_loop_lines_tagged_witness :
  Forall tagged_line [ustr "[User] Hi"; ustr "[Fin]  Hello&"].
Proof.
  apply (split_loop_lines_tagged html5_reserved 4300 PNone PNone
           [root_A; agent_B]
           ([ustr "Hi"], [ustr "[User] Hi"; ustr "[Fin]  Hello&"])).
  reflexivity.
Defined.

(** ** The collection pipeline *)

Section PipelineMore.

Variable html5 : str -> option str.
Variable cap : N.
Variable World : Type.
Variable fetch_full : pyval -> World -> result pyval * World.
Variable utc_isoformat : pyval -> result str.

Lemma py_eq_refl (c : pyval) : hashable c = true -> py_eq c c = true.
Proof.
  intros H; destruct (key_of_hashable c H) as [k Hk].
  apply (py_eq_key c c k Hk); exact Hk.
Qed.

Lemma ingest_seen (s cid : pyval) (st : run World) :
  field "id" s = Some cid ->
  py_in_set cid (seen st) = Ok true ->
  ingest html5 cap fetch_full utc_isoformat s st = (Ok tt, st).
Proof.
  intros Hid Hin; apply py_getitem_field in Hid.
  unfold ingest, bindM, lift, in_seen, ret; rewrite Hid, Hin; reflexivity.
Qed.

(** X10: ingesting a summary again changes nothing: after a call that
    returned, a second call on the same summary returns at once, with no
    request and no row. *)
Theorem ingest_again (s : pyval) (st st' : run World) :
  ingest html5 cap fetch_full utc_isoformat s st = (Ok tt, st') ->
  ingest html5 cap fetch_full utc_isoformat s st' = (Ok tt, st').
Proof.
  intros H.
  pose proof (ingest_outcome html5 cap World fetch_full utc_isoformat s st)
    as Hout.
  rewrite H in Hout; simpl in Hout.
  inversion Hout as [cid Hid Hin | | cid rating iso utxt ftxt w Hid Hin];
    subst.
  - apply (ingest_seen s cid st' Hid Hin).
  - apply (ingest_seen s cid _ Hid).
    apply py_in_set_hashable in Hin; destruct Hin as [Hh _].
    unfold py_in_set; rewrite Hh; simpl.
    rewrite (py_eq_refl cid Hh); reflexivity.
Qed.

(** X11: a call of [ingest] that raises appends no row to either list. *)
Theorem ingest_raise_keeps_rows (s : pyval) (st st' : run World) (e : exn) :
  ingest html5 cap fetch_full utc_isoformat s st = (Raise e, st') ->
  user_rows st' = user_rows st /\ convo_rows st' = convo_rows st.
Proof.
  intros H.
  pose proof (ingest_outcome html5 cap World fetch_full utc_isoformat s st)
    as Hout.
  rewrite H in Hout; simpl in Hout.
  inversion Hout; subst; auto.
Qed.

(** X12: the identifier enters [seen] before the conversation is fetched:
    when the request fails, the identifier stays in [seen] though it has no
    row, so that a further call on the same summary would return without
    fetching it. *)
Theorem ingest_failed_fetch (s cid : pyval) (st : run World) (e : exn)
    (w : World) :
  field "id" s = Some cid ->
  py_in_set cid (seen st) = Ok false ->
  fetch_full cid (world st) = (Raise e, w) ->
  ingest html5 cap fetch_full utc_isoformat s st =
    (Raise e, mkRun w (cid :: seen st) (user_rows st) (convo_rows st)) /\
  ingest html5 cap fetch_full utc_isoformat s
    (mkRun w (cid :: seen st) (user_rows st) (convo_rows st)) =
    (Ok tt, mkRun w (cid :: seen st) (user_rows st) (convo_rows st)).
Proof.
  intros Hid Hin Hfetch; split.
  - apply py_getitem_field in Hid.
    unfold ingest, bindM, lift, in_seen, seen_add, call_fetch_full.
    rewrite Hid, Hin; cbn [world seen user_rows convo_rows].
    rewrite Hfetch; reflexivity.
  - apply (ingest_seen s cid _ Hid).
    apply py_in_set_hashable in Hin; destruct Hin as [Hh _].
    unfold py_in_set; rewrite Hh; simpl.
    rewrite (py_eq_refl cid Hh); reflexivity.
Qed.

Lemma value_field (k : string) (v x : pyval) :
  field k v = Some x -> value k v = x.
Proof. unfold value; intros ->; reflexivity. Qed.

(** The identifiers of the rows grow by the new identifiers of the
    summaries, in their order. *)
Lemma ingest_all_ids (summaries : list pyval) (st st' : run World) :
  ingest_all html5 cap fetch_full utc_isoformat summaries st = (Ok tt, st') ->
  map (value "id") (user_rows st') =
    map (value "id") (user_rows st) ++
    first_occurrences (seen st) (map (value "id") summaries) /\
  map (value "id") (convo_rows st') =
    map (value "id") (convo_rows st) ++
    first_occurrences (seen st) (map (value "id") summaries).
Proof.
  revert st; induction summaries as [| c rest IH]; intros st Hrun.
  - injection Hrun as <-; simpl; rewrite !app_nil_r; auto.
  - rewrite ingest_all_cons in Hrun.
    destruct (ingest html5 cap fetch_full utc_isoformat c st)
      as [[[] | e] st1] eqn:Hc; [| discriminate Hrun].
    pose proof (ingest_outcome html5 cap World fetch_full utc_isoformat c st)
      as Hout.
    rewrite Hc in Hout; simpl in Hout.
    destruct (IH st1 Hrun) as [Hu Hv]; rewrite Hu, Hv; clear Hu Hv.
    inversion Hout as [cid Hid Hin | | cid rating iso utxt ftxt w Hid Hin];
      subst; apply py_in_set_hashable in Hin; destruct Hin as [_ Hin];
      simpl; rewrite (value_field "id" c cid Hid), Hin.
    + auto.
    + rewrite !map_app, <- !app_assoc; simpl; auto.
Qed.

(** X13: the rows follow the order of discovery: when all the calls
    return, the identifiers of the rows of each list are the identifiers of
    the summaries in the order of their first occurrence, each once. *)
Theorem rows_in_discovery_order (summaries : list pyval) (w : World)
    (st : run World) :
  ingest_all html5 cap fetch_full utc_isoformat summaries (start w) =
    (Ok tt, st) ->
  map (value "id") (user_rows st) =
    first_occurrences [] (map (value "id") summaries) /\
  map (value "id") (convo_rows st) =
    first_occurrences [] (map (value "id") summaries).
Proof.
  intros H; apply ingest_all_ids in H; exact H.
Qed.

End PipelineMore.

Lemma ingest_again_witness :
  ingest html5_reserved 4300 (fetch_constant (detail_A "source" true))
    utc_isoformat_int (summary "42" 1700000000 (PInt 1))
    (snd (ingest html5_reserved 4300 (fetch_constant (detail_A "source" true))
            utc_isoformat_int (summary "42" 1700000000 (PInt 1))
            (start 0%nat))) =
  (Ok tt,
   snd (ingest html5_reserved 4300 (fetch_constant (detail_A "source" true))
          utc_isoformat_int (summary "42" 1700000000 (PInt 1))
          (start 0%nat))).
Proof.
  apply (ingest_again html5_reserved 4300 nat
           (fetch_constant (detail_A "source" true)) utc_isoformat_int
           (summary "42" 1700000000 (PInt 1)) (start 0%nat)).
  vm_compute; reflexivity.
Defined.

Lemma ingest_raise_keeps_rows_witness :
  user_rows (snd (ingest html5_reserved 4300 fetch_down utc_isoformat_int
                    (summary "42" 1700000000 (PInt 1)) (start 0%nat))) = [] /\
  convo_rows (snd (ingest html5_reserved 4300 fetch_down utc_isoformat_int
                     (summary "42" 1700000000 (PInt 1)) (start 0%nat))) = [].
Proof.
  apply (ingest_raise_keeps_rows html5_reserved 4300 nat fetch_down
           utc_isoformat_int (summary "42" 1700000000 (PInt 1))
           (start 0%nat) _ RequestException).
  vm_compute; reflexivity.
Defined.

Lemma ingest_failed_fetch_witness :
  ingest html5_reserved 4300 fetch_down utc_isoformat_int
    (summary "42" 1700000000 (PInt 1)) (start 0%nat) =
  (Raise RequestException, mkRun 1%nat [text "42"] [] []).
Proof.
  apply (ingest_failed_fetch html5_reserved 4300 nat fetch_down
           utc_isoformat_int (summary "42" 1700000000 (PInt 1)) (text "42")
           (start 0%nat) RequestException 1%nat); reflexivity.
Defined.

Lemma rows_in_discovery_order_witness :
  map (value "id")
    (user_rows (snd (ingest_all html5_reserved 4300
                       (fetch_constant (detail_A "source" true))
                       utc_isoformat_int
                       (escalated_sample ++ low_csat_sample) (start 0%nat)))) =
  [text "42"; text "7"; text "9"].
Proof.
  apply (rows_in_discovery_order html5_reserved 4300 nat
           (fetch_constant (detail_A "source" true)) utc_isoformat_int
           (escalated_sample ++ low_csat_sample) 0%nat).
  vm_compute; reflexivity.
Defined.

(** ** The searches *)

Lemma lookup_dict_set_same (k : str) (v : pyval) (d : list (str * pyval)) :
  lookup k (dict_set k v d) = Some v.
Proof.
  induction d as [| [k' x] d IH]; simpl.
  - rewrite str_eqb_refl; reflexivity.
  - destruct (str_eqb k k') eqn:E; simpl; rewrite E; [reflexivity | exact IH].
Qed.

Lemma lookup_dict_set_other (k k2 : str) (v : pyval)
    (d : list (str * pyval)) :
  k2 <> k -> lookup k2 (dict_set k v d) = lookup k2 d.
Proof.
  intros Hne; induction d as [| [k' x] d IH]; simpl.
  - destruct (str_eqb k2 k) eqn:E; [| reflexivity].
    apply str_eqb_eq in E; contradiction.
  - destruct (str_eqb k k') eqn:E; simpl.
    + apply str_eqb_eq in E; subst k'.
      destruct (str_eqb k2 k) eqn:E2; [| reflexivity].
      apply str_eqb_eq in E2; contradiction.
    + rewrite IH; reflexivity.
Qed.

(** X14: the request for the next page is the request before it with the
    cursor written under [pagination.starting_after]: every other field of
    [pagination], and every other field of the request, the query among
    them, is unchanged. *)
Theorem with_cursor_keeps_query (body body' nxt : pyval) :
  with_cursor body nxt = Ok body' ->
  exists b pag b' pag',
    body = PDict b /\ lookup (ustr "pagination") b = Some (PDict pag) /\
    body' = PDict b' /\ lookup (ustr "pagination") b' = Some (PDict pag') /\
    lookup (ustr "starting_after") pag' = Some nxt /\
    (forall k, k <> ustr "starting_after" -> lookup k pag' = lookup k pag) /\
    (forall k, k <> ustr "pagination" -> lookup k b' = lookup k b).
Proof.
  unfold with_cursor, py_getitem; intros H.
  destruct body as [| | | | | b]; try discriminate H.
  destruct (lookup (ustr "pagination") b) as [pag |] eqn:Hp;
    [| discriminate H].
  destruct pag as [| | | | | pag]; try discriminate H.
  simpl in H; injection H as <-.
  exists b, pag, (dict_set (ustr "pagination")
                    (PDict (dict_set (ustr "starting_after") nxt pag)) b),
    (dict_set (ustr "starting_after") nxt pag).
  repeat split.
  - exact Hp.
  - apply lookup_dict_set_same.
  - apply lookup_dict_set_same.
  - intros k Hk; apply lookup_dict_set_other; exact Hk.
  - intros k Hk; apply lookup_dict_set_other; exact Hk.
Qed.

Lemma with_cursor_keeps_query_witness :
  exists b', with_cursor (ESCALATED 0 86400) (text "c1") = Ok (PDict b') /\
    lookup (ustr "query") b' =
      lookup (ustr "query")
        [(ustr "query", value "query" (ESCALATED 0 86400));
         (ustr "pagination", value "pagination" (ESCALATED 0 86400))].
Proof.
  destruct (with_cursor_keeps_query (ESCALATED 0 86400)
              (PDict [(ustr "query", value "query" (ESCALATED 0 86400));
                      (ustr "pagination",
                       obj [("per_page", PInt 100);
                            ("starting_after", text "c1")]%string)])
              (text "c1") eq_refl)
    as [b [pag [b' [pag' [Hb [_ [Hb' [_ [_ [_ Hq]]]]]]]]]].
  exists b'; split.
  - rewrite <- Hb'; reflexivity.
  - injection Hb as <-; apply Hq; discriminate.
Defined.

Section SearchFacts.

Variable State : Type.
Variable search_post : pyval -> State -> result pyval * State.
Variable loop_body : pyval -> State -> result unit * State.

Lemma page_cursor_null_next (pg pages : pyval) :
  field "pages" pg = Some pages ->
  field "next" pages = Some PNone ->
  page_cursor pg = Raise AttributeError.
Proof.
  unfold page_cursor; intros Hp Hn.
  destruct pg as [| | | | | d]; try discriminate Hp.
  rewrite py_get_dict, Hp; cbn [bind].
  destruct pages as [| | | | | d']; try discriminate Hn.
  rewrite py_get_dict, Hn; reflexivity.
Qed.

(** X15: a page that says [next: null], rather than leaving [next] out,
    makes the search raise [AttributeError]; the conversations of that page
    have been processed by then. *)
Theorem run_search_null_next (fuel : nat) (body pg pages : pyval)
    (items : list pyval) (st st1 st2 : State) :
  search_post body st = (Ok pg, st1) ->
  page_items pg = Ok items ->
  for_each loop_body items st1 = (Ok tt, st2) ->
  field "pages" pg = Some pages ->
  field "next" pages = Some PNone ->
  run_search_from search_post loop_body (S fuel) body st =
  Some (Raise AttributeError, st2).
Proof.
  intros Hpost Hitems Hloop Hp Hn; simpl.
  rewrite Hpost, Hitems, Hloop, (page_cursor_null_next pg pages Hp Hn).
  reflexivity.
Qed.

Lemma for_each_app (l l' : list pyval) (st : State) :
  for_each loop_body (l ++ l') st =
  match for_each loop_body l st with
  | (Ok _, st') => for_each loop_body l' st'
  | (Raise e, st') => (Raise e, st')
  end.
Proof.
  revert st; induction l as [| c l IH]; intros st; simpl; [reflexivity |].
  destruct (loop_body c st) as [[u | e] st']; [apply IH | reflexivity].
Qed.

(** What every request and every round of the loop keeps, the search
    keeps. *)
Lemma for_each_keeps (P : State -> Prop) :
  (forall c st, P st -> P (snd (loop_body c st))) ->
  forall items st, P st -> P (snd (for_each loop_body items st)).
Proof.
  intros Hk items; induction items as [| c rest IH]; intros st H; simpl.
  - exact H.
  - pose proof (Hk c st H) as H1.
    destruct (loop_body c st) as [[u | e] st']; simpl in H1;
      [apply IH; exact H1 | exact H1].
Qed.

Lemma run_search_keeps (P : State -> Prop) :
  (forall body st, P st -> P (snd (search_post body st))) ->
  (forall c st, P st -> P (snd (loop_body c st))) ->
  forall fuel body st r st',
    P st ->
    run_search_from search_post loop_body fuel body st = Some (r, st') ->
    P st'.
Proof.
  intros Hpost Hk fuel; induction fuel as [| fuel IH];
    intros body st r st' H Hrun; [discriminate Hrun |].
  simpl in Hrun.
  pose proof (Hpost body st H) as H1.
  destruct (search_post body st) as [[pg | e] st1]; simpl in H1;
    [| injection Hrun as <- <-; exact H1].
  destruct (page_items pg) as [items | e];
    [| injection Hrun as <- <-; exact H1].
  pose proof (for_each_keeps P Hk items st1 H1) as H2.
  destruct (for_each loop_body items st1) as [[u | e] st2]; simpl in H2;
    [| injection Hrun as <- <-; exact H2].
  destruct (page_cursor pg) as [nxt | e];
    [| injection Hrun as <- <-; exact H2].
  destruct (truthy nxt); [| injection Hrun as <- <-; exact H2].
  destruct (with_cursor body nxt) as [body' | e];
    [| injection Hrun as <- <-; exact H2].
  apply (IH body' st2 r st' H2 Hrun).
Qed.

(** The same for what only the rounds that return keep. *)
Lemma for_each_keeps_returning (Q : State -> Prop) :
  (forall c st st', Q st -> loop_body c st = (Ok tt, st') -> Q st') ->
  forall items st st',
    Q st -> for_each loop_body items st = (Ok tt, st') -> Q st'.
Proof.
  intros Hk items; induction items as [| c rest IH]; intros st st' H Hrun;
    simpl in Hrun.
  - injection Hrun as <-; exact H.
  - destruct (loop_body c st) as [[[] | e] st1] eqn:Hc; [| discriminate Hrun].
    apply (IH st1 st' (Hk c st st1 H Hc) Hrun).
Qed.

Lemma run_search_keeps_returning (Q : State -> Prop) :
  (forall body st, Q st -> Q (snd (search_post body st))) ->
  (forall c st st', Q st -> loop_body c st = (Ok tt, st') -> Q st') ->
  forall fuel body st st',
    Q st ->
    run_search_from search_post loop_body fuel body st = Some (Ok tt, st') ->
    Q st'.
Proof.
  intros Hpost Hk fuel; induction fuel as [| fuel IH];
    intros body st st' H Hrun; [discriminate Hrun |].
  simpl in Hrun.
  pose proof (Hpost body st H) as H1.
  destruct (search_post body st) as [[pg | e] st1]; simpl in H1;
    [| discriminate Hrun].
  destruct (page_items pg) as [items | e]; [| discriminate Hrun].
  destruct (for_each loop_body items st1) as [[[] | e] st2] eqn:Hloop;
    [| discriminate Hrun].
  pose proof (for_each_keeps_returning Q Hk items st1 st2 H1 Hloop) as H2.
  destruct (page_cursor pg) as [nxt | e]; [| discriminate Hrun].
  destruct (truthy nxt); [| injection Hrun as <-; exact H2].
  destruct (with_cursor body nxt) as [body' | e]; [| discriminate Hrun].
  apply (IH body' st2 st' H2 Hrun).
Qed.

End SearchFacts.

Lemma run_search_null_next_witness :
  run_search_from scripted_post (beside collect_item) 3
    (ESCALATED 0 86400)
    ([obj [("conversations", PList [text "a"; text "b"]);
           ("pages", obj [("next", PNone)])]%string], []) =
  Some (Raise AttributeError, ([], [text "a"; text "b"])).
Proof.
  apply (run_search_null_next (list pyval * list pyval) scripted_post
           (beside collect_item) 2 (ESCALATED 0 86400)
           (obj [("conversations", PList [text "a"; text "b"]);
                 ("pages", obj [("next", PNone)])]%string)
           (obj [("next", PNone)]%string)
           [text "a"; text "b"]
           ([obj [("conversations", PList [text "a"; text "b"]);
                  ("pages", obj [("next", PNone)])]%string], [])
           ([], []) ([], [text "a"; text "b"])); reflexivity.
Defined.

Section Scripted.

Variable A : Type.
Variable k : pyval -> A -> result unit * A.

Lemma for_each_beside (items pages : list pyval) (a : A) :
  for_each (beside k) items (pages, a) =
  (fst (for_each k items a), (pages, snd (for_each k items a))).
Proof.
  revert a; induction items as [| c rest IH]; intros a; simpl.
  - reflexivity.
  - unfold beside at 1; simpl.
    destruct (k c a) as [[u | e] a']; [apply IH | reflexivity].
Qed.

Lemma with_cursor_paginated (body nxt : pyval) :
  paginated body ->
  exists body', with_cursor body nxt = Ok body' /\ paginated body'.
Proof.
  intros [b [pag [-> Hp]]]; unfold with_cursor, py_getitem; rewrite Hp.
  simpl; eexists; split; [reflexivity |].
  eexists; eexists; split; [reflexivity | apply lookup_dict_set_same].
Qed.

(** X16: against a helpdesk that answers with the pages of a list, the
    search hands the conversations of the pages to the loop in order, page
    after page, up to and with the first page that has no cursor, provided
    the request has a [pagination] object; pages after that one are not
    requested.  It needs one request for each page. *)
Theorem run_search_yields (inner : list pyval) (last : pyval)
    (more : list pyval) (body : pyval) (a : A) (fuel : nat) :
  Forall inner_page inner -> last_page last -> paginated body ->
  (length inner < fuel)%nat ->
  exists rest,
    run_search_from scripted_post (beside k) fuel body
      (inner ++ last :: more, a) =
    Some (fst (for_each k (yielded (inner ++ [last])) a),
          (rest, snd (for_each k (yielded (inner ++ [last])) a))) /\
    (fst (for_each k (yielded (inner ++ [last])) a) = Ok tt -> rest = more).
Proof.
  intros Hinner [[items Hitems] [nxt [Hnxt Hfalse]]].
  revert body a fuel; induction Hinner as [| pg inner' Hpg _ IH];
    intros body a fuel Hbody Hfuel.
  - destruct fuel as [| fuel]; [inversion Hfuel |].
    unfold yielded; simpl; rewrite Hitems, app_nil_r.
    unfold scripted_post at 1; simpl.
    rewrite for_each_beside.
    destruct (for_each k items a) as [[[] | e] a']; simpl.
    + rewrite Hnxt, Hfalse; exists more; auto.
    + exists more; split; [reflexivity | discriminate].
  - destruct fuel as [| fuel]; [inversion Hfuel |].
    destruct Hpg as [[its Hits] [c [Hc Htrue]]].
    destruct (with_cursor_paginated body c Hbody) as [body' [Hb' Hpag']].
    destruct (IH body' (snd (for_each k its a)) fuel Hpag')
      as [rest [Hrun Hrest]]; [simpl in Hfuel; apply PeanoNat.lt_S_n; exact Hfuel |].
    assert (yielded ((pg :: inner') ++ [last]) =
            its ++ yielded (inner' ++ [last])) as ->.
    { unfold yielded; simpl; rewrite Hits; reflexivity. }
    rewrite (for_each_app A k its (yielded (inner' ++ [last])) a).
    simpl; unfold scripted_post at 1; simpl.
    rewrite Hits, for_each_beside.
    destruct (for_each k its a) as [[[] | e] a1]; simpl in *.
    + rewrite Hc, Htrue, Hb'; exists rest; split; [exact Hrun | exact Hrest].
    + eexists; split; [reflexivity | discriminate].
Qed.

End Scripted.

Lemma run_search_yields_witness :
  exists rest,
    run_search_from scripted_post (beside collect_item) 2
      (ESCALATED 0 86400)
      ([page [text "a"; text "b"] (text "c1"); final_page [text "c"];
        final_page [text "d"]], []) =
    Some (Ok tt, (rest, [text "a"; text "b"; text "c"])) /\
    (Ok tt = Ok tt -> rest = [final_page [text "d"]]).
Proof.
  apply (run_search_yields (list pyval) collect_item
           [page [text "a"; text "b"] (text "c1")] (final_page [text "c"])
           [final_page [text "d"]] (ESCALATED 0 86400) [] 2).
  - constructor; [| constructor].
    split; [eexists; reflexivity | eexists; split; reflexivity].
  - split; [eexists; reflexivity | eexists; split; reflexivity].
  - eexists; eexists; split; reflexivity.
  - simpl; lia.
Defined.

(** ** The script *)

Section ScriptFacts.

Variable html5 : str -> option str.
Variable cap : N.
Variable World : Type.
Variable search_post : pyval -> World -> result pyval * World.
Variable fetch_full : pyval -> World -> result pyval * World.
Variable utc_isoformat : pyval -> result str.

Lemma post_in_run_rows (body : pyval) (st : run World) :
  seen (snd (post_in_run search_post body st)) = seen st /\
  user_rows (snd (post_in_run search_post body st)) = user_rows st /\
  convo_rows (snd (post_in_run search_post body st)) = convo_rows st.
Proof.
  unfold post_in_run; destruct (search_post body (world st)); auto.
Qed.

(** X17: whatever the searches and the requests answer, and wherever the
    script stops, by an exception or at its end, [user_rows] and
    [convo_rows] have the same length and carry the same [id], [created_at]
    and [rating] at every index. *)
Theorem run_script_rows_aligned (fuel : nat) (y_start y_end : Z) (w : World)
    (r : result unit) (st : run World) :
  run_script html5 cap search_post fetch_full utc_isoformat fuel
    y_start y_end w = Some (r, st) ->
  rows_aligned (user_rows st) (convo_rows st).
Proof.
  intros Hrun; apply pairs_aligned.
  set (P := fun s : run World =>
              Forall2 same_summary_fields (user_rows s) (convo_rows s)).
  assert (forall body s, P s -> P (snd (post_in_run search_post body s)))
    as Hpost.
  { intros body s Hs; unfold P.
    destruct (post_in_run_rows body s) as [_ [-> ->]]; exact Hs. }
  assert (forall c s, P s ->
            P (snd (ingest html5 cap fetch_full utc_isoformat c s))) as Hk.
  { intros c s Hs; apply ingest_keeps_pairs; exact Hs. }
  unfold run_script in Hrun.
  destruct (run_search_from (post_in_run search_post)
              (ingest html5 cap fetch_full utc_isoformat) fuel
              (ESCALATED y_start y_end) (start w))
    as [[[u | e] st1] |] eqn:H1; [| | discriminate Hrun].
  - eapply (run_search_keeps _ _ _ P Hpost Hk fuel _ st1 r st);
      [| exact Hrun].
    eapply (run_search_keeps _ _ _ P Hpost Hk fuel _ (start w) (Ok u) st1);
      [constructor | exact H1].
  - injection Hrun as <- <-.
    eapply (run_search_keeps _ _ _ P Hpost Hk fuel _ (start w) (Raise e) st1);
      [constructor | exact H1].
Qed.

(** X18: when the script completes, no conversation is reported twice,
    whatever the searches returned: an identifier has at most one row in
    [user_rows], and as many in [convo_rows]. *)
Theorem run_script_reports_once (fuel : nat) (y_start y_end : Z) (w : World)
    (st : run World) (cid : pyval) :
  run_script html5 cap search_post fetch_full utc_isoformat fuel
    y_start y_end w = Some (Ok tt, st) ->
  hashable cid = true ->
  (count_id cid (user_rows st) <= 1)%nat /\
  count_id cid (convo_rows st) = count_id cid (user_rows st).
Proof.
  intros Hrun Hcid.
  assert (forall body s, consistent s ->
            consistent (snd (post_in_run search_post body s))) as Hpost.
  { intros body s Hs; unfold consistent.
    destruct (post_in_run_rows body s) as [-> [-> ->]]; exact Hs. }
  assert (forall c s s', consistent s ->
            ingest html5 cap fetch_full utc_isoformat c s = (Ok tt, s') ->
            consistent s') as Hk.
  { intros c s s' Hs Hc.
    apply (ingest_returns html5 cap World fetch_full utc_isoformat c s s' Hc Hs). }
  unfold run_script in Hrun.
  destruct (run_search_from (post_in_run search_post)
              (ingest html5 cap fetch_full utc_isoformat) fuel
              (ESCALATED y_start y_end) (start w))
    as [[[[] | e] st1] |] eqn:H1; try discriminate Hrun.
  assert (consistent st) as [Hu [Hc _]].
  { eapply (run_search_keeps_returning _ _ _ consistent Hpost Hk fuel _ st1 st);
      [| exact Hrun].
    eapply (run_search_keeps_returning _ _ _ consistent Hpost Hk fuel _
             (start w) st1); [apply start_consistent | exact H1]. }
  rewrite (Hu cid Hcid), (Hc cid Hcid).
  destruct (existsb (py_eq cid) (seen st)); split; auto.
Qed.

End ScriptFacts.

Lemma run_script_rows_aligned_witness :
  rows_aligned
    (user_rows (mkRun (@nil pyval) [text "7"; text "42"]
                  [user_row (text "42") (ustr "2023-11-14T22:13:20") (PInt 1)
                     (ustr "Hi");
                   user_row (text "7") (ustr "1970-01-01T00:00:00") PNone
                     (ustr "Hi")]
                  [convo_row (text "42") (ustr "2023-11-14T22:13:20") (PInt 1)
                     (ustr "[User] Hi");
                   convo_row (text "7") (ustr "1970-01-01T00:00:00") PNone
                     (ustr "[User] Hi")]))
    (convo_rows (mkRun (@nil pyval) [text "7"; text "42"]
                  [user_row (text "42") (ustr "2023-11-14T22:13:20") (PInt 1)
                     (ustr "Hi");
                   user_row (text "7") (ustr "1970-01-01T00:00:00") PNone
                     (ustr "Hi")]
                  [convo_row (text "42") (ustr "2023-11-14T22:13:20") (PInt 1)
                     (ustr "[User] Hi");
                   convo_row (text "7") (ustr "1970-01-01T00:00:00") PNone
                     (ustr "[User] Hi")])).
Proof.
  apply (run_script_rows_aligned html5_reserved 4300 (list pyval) pop_page
           (fetch_fixed (detail_A "source" true)) utc_isoformat_int
           3 0 86400
           [page escalated_sample (text "c1"); final_page [];
            final_page [summary "42" 1700000300 (PInt 1)]]
           (Ok tt)).
  vm_compute; reflexivity.
Defined.

Lemma run_script_reports_once_witness :
  (count_id (text "42")
     [user_row (text "42") (ustr "2023-11-14T22:13:20") (PInt 1) (ustr "Hi");
      user_row (text "7") (ustr "1970-01-01T00:00:00") PNone (ustr "Hi")]
   <= 1)%nat.
Proof.
  apply (run_script_reports_once html5_reserved 4300 (list pyval) pop_page
           (fetch_fixed (detail_A "source" true)) utc_isoformat_int
           3 0 86400
           [page escalated_sample (text "c1"); final_page [];
            final_page [summary "42" 1700000300 (PInt 1)]]
           (mkRun (@nil pyval) [text "7"; text "42"]
              [user_row (text "42") (ustr "2023-11-14T22:13:20") (PInt 1)
                 (ustr "Hi");
               user_row (text "7") (ustr "1970-01-01T00:00:00") PNone
                 (ustr "Hi")]
              [convo_row (text "42") (ustr "2023-11-14T22:13:20") (PInt 1)
                 (ustr "[User] Hi");
               convo_row (text "7") (ustr "1970-01-01T00:00:00") PNone
                 (ustr "[User] Hi")])
           (text "42")).
  - vm_compute; reflexivity.
  - reflexivity.
Defined.

(** ** The CSV files *)

Lemma delimited_special (r : str) :
  delimited r -> exists c r', r = c :: r' /\ csv_special c = true /\ c <> QUOTE.
Proof.
  intros [c [r' [-> [-> | ->]]]]; eexists; eexists;
    (split; [reflexivity | split; [reflexivity | discriminate]]).
Qed.

Lemma csv_plain_unique (s t r1 r2 : str) :
  existsb csv_special s = false -> existsb csv_special t = false ->
  delimited r1 -> delimited r2 ->
  s ++ r1 = t ++ r2 -> s = t /\ r1 = r2.
Proof.
  intros Hs Ht H1 H2; revert t Ht.
  apply delimited_special in H1; destruct H1 as [c1 [r1' [-> [Hc1 _]]]].
  apply delimited_special in H2; destruct H2 as [c2 [r2' [-> [Hc2 _]]]].
  induction s as [| a s IH]; intros [| b t] Ht E; simpl in *.
  - auto.
  - injection E as -> _; rewrite Hc1 in Ht; discriminate Ht.
  - injection E as -> _; rewrite Hc2 in Hs; discriminate Hs.
  - injection E as -> E.
    apply orb_false_iff in Hs; destruct Hs as [_ Hs].
    apply orb_false_iff in Ht; destruct Ht as [_ Ht].
    destruct (IH Hs t Ht E) as [-> ->]; auto.
Qed.

Lemma csv_double_unique (s t r1 r2 : str) :
  delimited r1 -> delimited r2 ->
  csv_double s ++ QUOTE :: r1 = csv_double t ++ QUOTE :: r2 ->
  s = t /\ r1 = r2.
Proof.
  intros H1 H2; revert t.
  apply delimited_special in H1; destruct H1 as [c1 [r1' [-> [_ Hc1]]]].
  apply delimited_special in H2; destruct H2 as [c2 [r2' [-> [_ Hc2]]]].
  induction s as [| a s IH]; intros [| b t] E; simpl in E.
  - injection E as -> ->; auto.
  - destruct (N.eqb_spec b QUOTE) as [-> | Hb]; simpl in E.
    + injection E as E _; contradiction Hc1; exact E.
    + injection E as E _; contradiction Hb; symmetry; exact E.
  - destruct (N.eqb_spec a QUOTE) as [-> | Ha]; simpl in E.
    + injection E as E _; contradiction Hc2; symmetry; exact E.
    + injection E as E _; contradiction Ha.
  - destruct (N.eqb_spec a QUOTE) as [-> | Ha];
      destruct (N.eqb_spec b QUOTE) as [-> | Hb]; simpl in E.
    + injection E as E; destruct (IH t E) as [-> ->]; auto.
    + injection E as E _; contradiction Hb; symmetry; exact E.
    + injection E as E _; contradiction Ha.
    + injection E as -> E; destruct (IH t E) as [-> ->]; auto.
Qed.

Lemma csv_plain_no_quote (s r : str) :
  existsb csv_special s = false -> delimited r ->
  forall rest, s ++ r <> QUOTE :: rest.
Proof.
  intros Hs Hr rest E.
  apply delimited_special in Hr; destruct Hr as [c [r' [-> [_ Hc]]]].
  destruct s as [| a s]; simpl in E; injection E as E _.
  - contradiction.
  - subst a; discriminate Hs.
Qed.

(** A field, followed by a comma or by the line terminator, is read back in
    one way only. *)
Lemma csv_field_unique (s t r1 r2 : str) :
  delimited r1 -> delimited r2 ->
  csv_field s ++ r1 = csv_field t ++ r2 -> s = t /\ r1 = r2.
Proof.
  intros H1 H2; unfold csv_field.
  destruct (existsb csv_special s) eqn:Hs;
    destruct (existsb csv_special t) eqn:Ht; intros E.
  - simpl in E; injection E as E.
    rewrite <- !app_assoc in E; simpl in E.
    apply (csv_double_unique s t r1 r2 H1 H2 E).
  - exfalso; simpl in E; symmetry in E.
    apply (csv_plain_no_quote t r2 Ht H2 _ E).
  - exfalso; simpl in E.
    apply (csv_plain_no_quote s r1 Hs H1 _ E).
  - apply (csv_plain_unique s t r1 r2 Hs Ht H1 H2 E).
Qed.

Section CsvFacts.

Variable py_str : pyval -> str.

Lemma csv_fields_unique (fs gs : list pyval) (rest1 rest2 : str) :
  fs <> [] -> gs <> [] ->
  join [COMMA] (map (fun v => csv_field (csv_text py_str v)) fs) ++
    CR :: LF :: rest1 =
  join [COMMA] (map (fun v => csv_field (csv_text py_str v)) gs) ++
    CR :: LF :: rest2 ->
  map (csv_text py_str) fs = map (csv_text py_str) gs /\ rest1 = rest2.
Proof.
  revert gs; induction fs as [| f fs IH]; intros gs Hf Hg E;
    [contradiction Hf; reflexivity |].
  destruct gs as [| g gs]; [contradiction Hg; reflexivity |].
  destruct fs as [| f' fs]; destruct gs as [| g' gs].
  - simpl in E.
    destruct (csv_field_unique _ _ _ _
                (ex_intro _ CR (ex_intro _ _ (conj eq_refl (or_intror eq_refl))))
                (ex_intro _ CR (ex_intro _ _ (conj eq_refl (or_intror eq_refl))))
                E) as [Hfg E'].
    injection E' as ->; simpl; rewrite Hfg; auto.
  - exfalso; cbn [map join] in E; rewrite <- !app_assoc in E.
    destruct (csv_field_unique _ _ _ _
                (ex_intro _ CR (ex_intro _ _ (conj eq_refl (or_intror eq_refl))))
                (ex_intro _ COMMA (ex_intro _ _ (conj eq_refl (or_introl eq_refl))))
                E) as [_ E'].
    discriminate E'.
  - exfalso; cbn [map join] in E; rewrite <- !app_assoc in E.
    destruct (csv_field_unique _ _ _ _
                (ex_intro _ COMMA (ex_intro _ _ (conj eq_refl (or_introl eq_refl))))
                (ex_intro _ CR (ex_intro _ _ (conj eq_refl (or_intror eq_refl))))
                E) as [_ E'].
    discriminate E'.
  - change (join [COMMA]
              (map (fun v => csv_field (csv_text py_str v)) (f :: f' :: fs)))
      with (csv_field (csv_text py_str f) ++ [COMMA] ++
            join [COMMA]
              (map (fun v => csv_field (csv_text py_str v)) (f' :: fs))) in E.
    change (join [COMMA]
              (map (fun v => csv_field (csv_text py_str v)) (g :: g' :: gs)))
      with (csv_field (csv_text py_str g) ++ [COMMA] ++
            join [COMMA]
              (map (fun v => csv_field (csv_text py_str v)) (g' :: gs))) in E.
    rewrite <- !app_assoc in E.
    destruct (csv_field_unique _ _ _ _
                (ex_intro _ COMMA (ex_intro _ _ (conj eq_refl (or_introl eq_refl))))
                (ex_intro _ COMMA (ex_intro _ _ (conj eq_refl (or_introl eq_refl))))
                E) as [Hfg E'].
    simpl in E'; injection E' as E'.
    destruct (IH (g' :: gs) ltac:(discriminate) ltac:(discriminate) E')
      as [Hrest ->].
    split; [| reflexivity].
    simpl; rewrite Hfg; simpl in Hrest; rewrite Hrest; reflexivity.
Qed.

Lemma csv_writerow_many (fields : list pyval) :
  (2 <= length fields)%nat ->
  csv_writerow py_str fields =
  join [COMMA] (map (fun v => csv_field (csv_text py_str v)) fields) ++
  [CR; LF].
Proof.
  destruct fields as [| a [| b l]]; simpl; intros H; try lia; reflexivity.
Qed.

(** X19: the text of the records determines the texts of their fields:
    two lists of rows of two fields or more that are written as the same
    text have the same field texts, row by row.  Commas, quotes and line
    breaks inside a transcript cannot be mistaken for the structure of the
    file. *)
Theorem csv_writerows_lossless (rows1 rows2 : list (list pyval)) :
  Forall (fun r => (2 <= length r)%nat) rows1 ->
  Forall (fun r => (2 <= length r)%nat) rows2 ->
  csv_writerows py_str rows1 = csv_writerows py_str rows2 ->
  map (map (csv_text py_str)) rows1 = map (map (csv_text py_str)) rows2.
Proof.
  intros H1; revert rows2; induction H1 as [| r1 rows1 Hr1 _ IH];
    intros rows2 H2 E; destruct H2 as [| r2 rows2 Hr2 H2].
  - reflexivity.
  - exfalso; unfold csv_writerows in E; simpl in E.
    rewrite (csv_writerow_many r2 Hr2) in E.
    destruct (join [COMMA] (map (fun v => csv_field (csv_text py_str v)) r2));
      discriminate E.
  - exfalso; unfold csv_writerows in E; simpl in E.
    rewrite (csv_writerow_many r1 Hr1) in E.
    destruct (join [COMMA] (map (fun v => csv_field (csv_text py_str v)) r1));
      discriminate E.
  - unfold csv_writerows in E; simpl in E.
    rewrite (csv_writerow_many r1 Hr1), (csv_writerow_many r2 Hr2) in E.
    rewrite <- !app_assoc in E; simpl in E.
    assert (r1 <> [] /\ r2 <> []) as [N1 N2].
    { split; intros ->; simpl in *; lia. }
    destruct (csv_fields_unique r1 r2 _ _ N1 N2 E) as [Hr E'].
    simpl; rewrite Hr, (IH rows2 H2 E'); reflexivity.
Qed.

Lemma encodable_app (s t : str) :
  encodable (s ++ t) = encodable s && encodable t.
Proof. unfold encodable; rewrite existsb_app, negb_orb; reflexivity. Qed.

Lemma writerows_shaped (fieldnames : list str) (rows : list pyval)
    (file : str) :
  Forall (fun r => dict_to_list fieldnames r = Ok (cells fieldnames r)) rows ->
  encodable (csv_writerows py_str (map (cells fieldnames) rows)) = true ->
  writerows py_str fieldnames rows file =
  (Ok tt, file ++ csv_writerows py_str (map (cells fieldnames) rows)).
Proof.
  intros H; revert file; induction H as [| r rows Hr _ IH]; intros file He.
  - simpl; rewrite app_nil_r; reflexivity.
  - unfold csv_writerows in He; simpl in He.
    rewrite encodable_app in He; apply andb_true_iff in He.
    destruct He as [He1 He2].
    simpl; rewrite Hr; unfold file_write; rewrite He1.
    rewrite (IH _ He2); unfold csv_writerows; simpl.
    rewrite app_assoc; reflexivity.
Qed.

(** X25: a surrogate in a row stops the writing with [UnicodeEncodeError]
    at that row: the file is left with the header and the records of the
    rows before it. *)
Theorem write_csv_stops_at_surrogate (fieldnames : list str)
    (before after : list pyval) (r : pyval) :
  Forall (fun x => dict_to_list fieldnames x = Ok (cells fieldnames x))
    (before ++ [r]) ->
  encodable (csv_writerow py_str (map PStr fieldnames) ++
             csv_writerows py_str (map (cells fieldnames) before)) = true ->
  encodable (csv_writerow py_str (cells fieldnames r)) = false ->
  write_csv py_str fieldnames (before ++ r :: after) =
  (Raise ValueError,
   csv_writerow py_str (map PStr fieldnames) ++
   csv_writerows py_str (map (cells fieldnames) before)).
Proof.
  intros Hshape He Hr; unfold write_csv, file_write at 1.
  rewrite encodable_app in He; apply andb_true_iff in He.
  destruct He as [Hh Hb]; rewrite Hh; simpl app.
  apply Forall_app in Hshape; destruct Hshape as [Hbefore Hrow].
  inversion Hrow as [| x l Hx _]; subst; clear Hrow.
  generalize (csv_writerow py_str (map PStr fieldnames)) as file.
  induction Hbefore as [| b before Hbd _ IH]; intros file.
  - simpl; rewrite Hx; unfold file_write; rewrite Hr.
    rewrite app_nil_r; reflexivity.
  - unfold csv_writerows in Hb; simpl in Hb.
    rewrite encodable_app in Hb; apply andb_true_iff in Hb.
    destruct Hb as [Hb1 Hb2].
    simpl; rewrite Hbd; unfold file_write at 1; rewrite Hb1.
    rewrite (IH Hb2); unfold csv_writerows; simpl.
    rewrite app_assoc; reflexivity.
Qed.

End CsvFacts.

Lemma csv_writerows_lossless_witness :
  map (map (csv_text str_of_bool))
    [[text "42"; PNone; text "Hi, there"]; [text "7"; text ""; text "a"]] =
  map (map (csv_text str_of_bool))
    [[text "42"; text ""; text "Hi, there"]; [text "7"; PNone; text "a"]].
Proof.
  apply (csv_writerows_lossless str_of_bool
           [[text "42"; PNone; text "Hi, there"]; [text "7"; text ""; text "a"]]
           [[text "42"; text ""; text "Hi, there"]; [text "7"; PNone; text "a"]]).
  - repeat constructor.
  - repeat constructor.
  - reflexivity.
Defined.

Section SaveFacts.

Variable html5 : str -> option str.
Variable cap : N.
Variable World : Type.
Variable search_post : pyval -> World -> result pyval * World.
Variable fetch_full : pyval -> World -> result pyval * World.
Variable utc_isoformat : pyval -> result str.
Variable py_str : pyval -> str.

Lemma ingest_keeps_shapes (c : pyval) (st : run World) :
  Forall user_row_shape (user_rows st) /\
  Forall convo_row_shape (convo_rows st) ->
  Forall user_row_shape
    (user_rows (snd (ingest html5 cap fetch_full utc_isoformat c st))) /\
  Forall convo_row_shape
    (convo_rows (snd (ingest html5 cap fetch_full utc_isoformat c st))).
Proof.
  intros [Hu Hc].
  pose proof (ingest_outcome html5 cap World fetch_full utc_isoformat c st)
    as Hout.
  destruct (ingest html5 cap fetch_full utc_isoformat c st) as [r st'].
  simpl in *.
  inversion Hout as [cid Hid Hin | e st0 Eu Ec
                    | cid rating iso utxt ftxt w Hid Hin]; subst; simpl.
  - auto.
  - rewrite Eu, Ec; auto.
  - split; apply Forall_app; split; auto; constructor; try constructor.
    + exists cid, iso, rating, utxt; reflexivity.
    + exists cid, iso, rating, ftxt; reflexivity.
Qed.

(** X20: when the collection completes, writing the two files cannot fail
    on the field names: whatever the searches and the requests returned,
    each file holds the header and then one record for each row, in the
    order of the rows, unless a text holds a surrogate, which cannot be
    encoded. *)
Theorem save_after_script (fuel : nat) (y_start y_end : Z) (w : World)
    (st : run World) :
  run_script html5 cap search_post fetch_full utc_isoformat fuel
    y_start y_end w = Some (Ok tt, st) ->
  encodable (csv_writerows py_str
               (map (cells user_fields) (user_rows st))) = true ->
  encodable (csv_writerows py_str
               (map (cells convo_fields) (convo_rows st))) = true ->
  save_csvs py_str (user_rows st) (convo_rows st) =
  (Ok tt,
   [ csv_writerow py_str (map PStr user_fields) ++
     csv_writerows py_str (map (cells user_fields) (user_rows st));
     csv_writerow py_str (map PStr convo_fields) ++
     csv_writerows py_str (map (cells convo_fields) (convo_rows st)) ]).
Proof.
  intros Hrun Heu Hec.
  set (P := fun s : run World =>
              Forall user_row_shape (user_rows s) /\
              Forall convo_row_shape (convo_rows s)).
  assert (forall body s, P s -> P (snd (post_in_run search_post body s)))
    as Hpost.
  { intros body s Hs; unfold P, post_in_run.
    destruct (search_post body (world s)); exact Hs. }
  assert (forall c s, P s ->
            P (snd (ingest html5 cap fetch_full utc_isoformat c s))) as Hk.
  { intros c s Hs; apply ingest_keeps_shapes; exact Hs. }
  assert (P st) as [Hu Hc].
  { unfold run_script in Hrun.
    destruct (run_search_from (post_in_run search_post)
                (ingest html5 cap fetch_full utc_isoformat) fuel
                (ESCALATED y_start y_end) (start w))
      as [[[u | e] st1] |] eqn:H1; try discriminate Hrun.
    eapply (run_search_keeps _ _ _ P Hpost Hk fuel _ st1 _ st);
      [| exact Hrun].
    eapply (run_search_keeps _ _ _ P Hpost Hk fuel _ (start w) _ st1);
      [split; constructor | exact H1]. }
  unfold save_csvs, write_csv, file_write; cbn [encodable negb].
  change (encodable (csv_writerow py_str (map PStr user_fields)))
    with true.
  change (encodable (csv_writerow py_str (map PStr convo_fields)))
    with true.
  cbn iota.
  rewrite (writerows_shaped py_str user_fields (user_rows st));
    [| | exact Heu].
  - rewrite (writerows_shaped py_str convo_fields (convo_rows st));
      [reflexivity | | exact Hec].
    apply Forall_forall; intros r Hr.
    assert (convo_row_shape r) as [cid [iso [rating [txt ->]]]]
      by (revert r Hr; apply Forall_forall; exact Hc).
    reflexivity.
  - apply Forall_forall; intros r Hr.
    assert (user_row_shape r) as [cid [iso [rating [txt ->]]]]
      by (revert r Hr; apply Forall_forall; exact Hu).
    reflexivity.
Qed.

End SaveFacts.

Lemma save_after_script_witness :
  fst (save_csvs str_of_bool
         [user_row (text "42") (ustr "2023-11-14T22:13:20") (PInt 1)
            (ustr "Hi");
          user_row (text "7") (ustr "1970-01-01T00:00:00") PNone (ustr "Hi")]
         [convo_row (text "42") (ustr "2023-11-14T22:13:20") (PInt 1)
            (ustr "[User] Hi");
          convo_row (text "7") (ustr "1970-01-01T00:00:00") PNone
            (ustr "[User] Hi")]) = Ok tt.
Proof.
  pose proof (save_after_script html5_reserved 4300 (list pyval) pop_page
             (fetch_fixed (detail_A "source" true)) utc_isoformat_int
             str_of_bool 3 0 86400
             [page escalated_sample (text "c1"); final_page [];
              final_page [summary "42" 1700000300 (PInt 1)]]
             (mkRun (@nil pyval) [text "7"; text "42"]
                [user_row (text "42") (ustr "2023-11-14T22:13:20") (PInt 1)
                   (ustr "Hi");
                 user_row (text "7") (ustr "1970-01-01T00:00:00") PNone
                   (ustr "Hi")]
                [convo_row (text "42") (ustr "2023-11-14T22:13:20") (PInt 1)
                   (ustr "[User] Hi");
                 convo_row (text "7") (ustr "1970-01-01T00:00:00") PNone
                   (ustr "[User] Hi")])) as H.
  cbn [user_rows convo_rows] in H.
  rewrite H; [reflexivity | vm_compute; reflexivity | reflexivity
             | reflexivity].
Defined.

(** ** The delivery *)

Lemma str_containsb_skip (c0 : N) (needle before rest : str) :
  Forall (fun c => c <> c0) before ->
  str_containsb (c0 :: needle) (before ++ rest) =
  str_containsb (c0 :: needle) rest.
Proof.
  induction 1 as [| a before Ha _ IH]; [reflexivity |].
  simpl app; cbn [str_containsb str_prefixb].
  destruct (N.eqb_spec c0 a) as [E | _]; [contradiction Ha; auto |].
  exact IH.
Qed.

Lemma zero_padded_digits (width : nat) (n : Z) :
  Forall (fun c => c <> 101) (zero_padded width n).
Proof.
  revert n; induction width as [| w IH]; intros n; cbn [zero_padded];
    [constructor |].
  apply Forall_app; split; [apply IH |].
  constructor; [| constructor].
  pose proof (Z.mod_pos_bound n 10%Z ltac:(lia)) as Hmod; intros E.
  assert (Z.of_N (Z.to_N (48 + n mod 10)) = 101%Z) as E'
    by (rewrite E; reflexivity).
  rewrite Z2N.id in E' by lia; lia.
Qed.

Lemma isoformat_date_no_e (y m d : Z) :
  Forall (fun c => c <> 101) (isoformat_date y m d).
Proof.
  unfold isoformat_date.
  apply Forall_app; split; [apply zero_padded_digits |].
  apply Forall_app; split; [repeat constructor; discriminate |].
  apply Forall_app; split; [apply zero_padded_digits |].
  apply Forall_app; split; [repeat constructor; discriminate |].
  apply zero_padded_digits.
Qed.

Lemma str_containsb_cons (needle hay : str) (c : N) :
  str_containsb needle (c :: hay) =
  str_prefixb needle (c :: hay) || str_containsb needle hay.
Proof. reflexivity. Qed.

Lemma no_escalations (a b : str) :
  Forall (fun c => c <> 101) a -> Forall (fun c => c <> 101) b ->
  str_containsb (ustr "escalations") (a ++ ustr "er" ++ b) = false.
Proof.
  intros Ha Hb.
  change (ustr "escalations") with (101 :: 115 :: ustr "calations").
  rewrite (str_containsb_skip 101 _ a _ Ha).
  change (ustr "er" ++ b) with (101 :: 114 :: b).
  rewrite str_containsb_cons.
  assert (str_prefixb (101 :: 115 :: ustr "calations") (101 :: 114 :: b) =
          false) as -> by reflexivity.
  cbn [orb].
  rewrite <- (app_nil_r (114 :: b)).
  rewrite (str_containsb_skip 101 _ (114 :: b) []);
    [reflexivity | constructor; [discriminate | exact Hb]].
Qed.

(** X21: for every date, the report line goes with the escalations file and
    with that file only: the conversations file is sent with an empty
    comment. *)
Theorem comment_on_escalations_only (y m d : Z) :
  map (initial_comment (isoformat_date y m d))
      (report_files (isoformat_date y m d)) =
  [report_comment (isoformat_date y m d); []].
Proof.
  unfold report_files, initial_comment; cbn [map].
  assert (str_containsb (ustr "escalations")
            (escalations_name (isoformat_date y m d)) = true) as ->.
  { unfold escalations_name.
    change (ustr "fin_escalations_" ++ isoformat_date y m d ++ ustr ".csv")
      with (ustr "fin_" ++ ustr "escalations" ++
            ustr "_" ++ isoformat_date y m d ++ ustr ".csv").
    rewrite (str_containsb_skip 101 (ustr "scalations") (ustr "fin_"));
      [reflexivity | repeat constructor; discriminate]. }
  assert (str_containsb (ustr "escalations")
            (conversations_name (isoformat_date y m d)) = false) as ->.
  { unfold conversations_name.
    change (ustr "fin_conversations_" ++ isoformat_date y m d ++ ustr ".csv")
      with (ustr "fin_conv" ++ ustr "er" ++
            (ustr "sations_" ++ isoformat_date y m d ++ ustr ".csv")).
    apply no_escalations; [repeat constructor; discriminate |].
    apply Forall_app; split; [repeat constructor; discriminate |].
    apply Forall_app; split; [apply isoformat_date_no_e |].
    repeat constructor; discriminate. }
  reflexivity.
Qed.

(** ** More on the splitter and the pipeline *)

(** X22: a text without ['<'] and without ['&'] is only trimmed. *)
Theorem strip_html_plain_text (html5 : str -> option str) (cap : N)
    (s : str) :
  ~ In LT s -> ~ In AMP s ->
  strip_html html5 cap (PStr s) = Ok (strip s).
Proof.
  intros Hlt Hamp; rewrite strip_html_str.
  rewrite (tag_sub_without_lt s Hlt).
  rewrite (unescape_without_amp html5 cap s Hamp); reflexivity.
Qed.

Lemma strip_html_plain_text_witness :
  strip_html html5_reserved 4300 (text "  2 > 1, said Fin  ") =
  Ok (ustr "2 > 1, said Fin").
Proof.
  apply (strip_html_plain_text html5_reserved 4300
           (ustr "  2 > 1, said Fin  ")).
  - simpl; unfold LT; intros H;
      repeat destruct H as [H | H]; try discriminate H; exact H.
  - simpl; unfold AMP; intros H;
      repeat destruct H as [H | H]; try discriminate H; exact H.
Defined.

Section LoopOrder.

Variable html5 : str -> option str.
Variable cap : N.

(** [acc'] is [acc] with lines appended. *)
Lemma split_loop_appends (fin_id cutoff : pyval) (parts : list pyval)
    (acc acc' : lines) :
  split_loop html5 cap fin_id cutoff parts acc = Ok acc' ->
  exists u c, fst acc' = fst acc ++ u /\ snd acc' = snd acc ++ c.
Proof.
  revert acc; induction parts as [| p rest IH]; intros acc H.
  - injection H as <-; exists [], []; rewrite !app_nil_r; auto.
  - simpl in H; apply bind_Ok in H; destruct H as [[|] [_ H]].
    + injection H as <-; exists [], []; rewrite !app_nil_r; auto.
    + apply bind_Ok in H; destruct H as [acc1 [Hp H]].
      destruct (IH acc1 H) as [u [c [Hu Hc]]]; rewrite Hu, Hc.
      destruct (part_lines_shape html5 cap fin_id p acc acc1 Hp)
        as [-> | [body [_ [_ [-> | ->]]]]]; simpl.
      * exists u, c; auto.
      * exists u, ([ustr "[Fin]  " ++ body] ++ c).
        rewrite <- app_assoc; auto.
      * exists ([body] ++ u), ([ustr "[User] " ++ body] ++ c).
        rewrite <- !app_assoc; auto.
Qed.

Lemma split_loop_app (fin_id cutoff : pyval) (parts more : list pyval)
    (acc acc1 acc2 : lines) :
  split_loop html5 cap fin_id cutoff parts acc = Ok acc1 ->
  split_loop html5 cap fin_id cutoff (parts ++ more) acc = Ok acc2 ->
  acc2 = acc1 \/ split_loop html5 cap fin_id cutoff more acc1 = Ok acc2.
Proof.
  revert acc; induction parts as [| p rest IH]; intros acc H1 H2.
  - injection H1 as <-; right; exact H2.
  - simpl in H1, H2.
    destruct (truncates cutoff p) as [[|] | e]; simpl in H1, H2;
      try discriminate H1.
    + left; congruence.
    + destruct (part_lines html5 cap fin_id p acc) as [a | e];
        simpl in H1, H2; [| discriminate H1].
      apply (IH a H1 H2).
Qed.

(** X23: the lines keep the order of the parts.  When further parts at
    the end of a conversation leave the cutoff as it was, the lines of the
    earlier parts stay as they are and where they are in both transcripts,
    and lines are only added after them. *)
Theorem split_extends (conv1 conv2 fin_id : pyval) (parts more : list pyval)
    (r1 r2 : str * str) :
  split_fin_id conv1 = Ok fin_id ->
  split_fin_id conv2 = Ok fin_id ->
  split_parts conv1 = Ok parts ->
  split_parts conv2 = Ok (parts ++ more) ->
  first_assignment (parts ++ more) = first_assignment parts ->
  split html5 cap conv1 = Ok r1 ->
  split html5 cap conv2 = Ok r2 ->
  exists cutoff user_lines convo_lines u c,
    split_loop html5 cap fin_id cutoff parts ([], []) =
      Ok (user_lines, convo_lines) /\
    r1 = (join blank_line user_lines, join blank_line convo_lines) /\
    r2 = (join blank_line (user_lines ++ u),
          join blank_line (convo_lines ++ c)).
Proof.
  intros F1 F2 P1 P2 Hcut H1 H2; unfold split in H1, H2.
  rewrite F1, P1 in H1; rewrite F2, P2 in H2; cbn [bind] in H1, H2.
  rewrite Hcut in H2.
  destruct (first_assignment parts) as [cutoff | e]; cbn [bind] in H1, H2;
    [| discriminate H1].
  apply bind_Ok in H1; destruct H1 as [acc1 [L1 H1]].
  apply bind_Ok in H2; destruct H2 as [acc2 [L2 H2]].
  injection H1 as <-; injection H2 as <-.
  assert (exists u c, fst acc2 = fst acc1 ++ u /\ snd acc2 = snd acc1 ++ c)
    as [u [c [Hu Hc]]].
  { destruct (split_loop_app fin_id cutoff parts more _ acc1 acc2 L1 L2)
      as [-> | H].
    - exists [], []; rewrite !app_nil_r; auto.
    - apply (split_loop_appends fin_id cutoff more acc1 acc2 H). }
  exists cutoff, (fst acc1), (snd acc1), u, c.
  rewrite Hu, Hc; destruct acc1; auto.
Qed.

End LoopOrder.

Lemma split_extends_witness :
  exists cutoff user_lines convo_lines u c,
    split_loop html5_reserved 4300 PNone cutoff [root_A] ([], []) =
      Ok (user_lines, convo_lines) /\
    (ustr "Hi", ustr "[User] Hi") =
      (join blank_line user_lines, join blank_line convo_lines) /\
    (ustr "Hi", join blank_line [ustr "[User] Hi"; ustr "[Fin]  Hello&"]) =
      (join blank_line (user_lines ++ u), join blank_line (convo_lines ++ c)).
Proof.
  apply (split_extends html5_reserved 4300
           (detail_of [root_A]) (detail_of [root_A; agent_B]) PNone
           [root_A] [agent_B]);
    reflexivity.
Defined.

Section IngestEdges.

Variable html5 : str -> option str.
Variable cap : N.
Variable World : Type.
Variable fetch_full : pyval -> World -> result pyval * World.
Variable utc_isoformat : pyval -> result str.

(** X24: a summary without [id] makes [ingest] raise before anything else
    happens: [KeyError] for an object, [TypeError] for another value; no
    request is made and the run is unchanged. *)
Theorem ingest_without_id (s : pyval) (st : run World) :
  field "id" s = None ->
  ingest html5 cap fetch_full utc_isoformat s st =
  (Raise (match s with PDict _ => KeyError | _ => TypeError end), st).
Proof.
  intros H; unfold ingest, bindM, lift, py_getitem.
  destruct s as [| | | | | d]; try reflexivity.
  unfold field in H; rewrite H; reflexivity.
Qed.

End IngestEdges.

Lemma ingest_without_id_witness :
  ingest html5_reserved 4300 (fetch_constant (detail_A "source" true))
    utc_isoformat_int (obj [("created_at", PInt 0)]%string) (start 0%nat) =
  (Raise KeyError, start 0%nat).
Proof.
  apply (ingest_without_id html5_reserved 4300 nat
           (fetch_constant (detail_A "source" true)) utc_isoformat_int
           (obj [("created_at", PInt 0)]%string) (start 0%nat)).
  reflexivity.
Defined.

Lemma write_csv_stops_at_surrogate_witness :
  write_csv str_of_bool user_fields
    ([user_row (text "42") (ustr "2023-11-14T22:13:20") (PInt 1) (ustr "Hi")]
     ++ user_row (text "7") (ustr "1970-01-01T00:00:00") PNone [55296]
     :: [user_row (text "9") (ustr "1970-01-02T00:00:00") PNone (ustr "Yo")]) =
  (Raise ValueError,
   csv_writerow str_of_bool (map PStr user_fields) ++
   csv_writerows str_of_bool
     (map (cells user_fields)
        [user_row (text "42") (ustr "2023-11-14T22:13:20") (PInt 1)
           (ustr "Hi")])).
Proof.
  apply (write_csv_stops_at_surrogate str_of_bool user_fields
           [user_row (text "42") (ustr "2023-11-14T22:13:20") (PInt 1)
              (ustr "Hi")]
           [user_row (text "9") (ustr "1970-01-02T00:00:00") PNone (ustr "Yo")]
           (user_row (text "7") (ustr "1970-01-01T00:00:00") PNone [55296])).
  - repeat constructor.
  - reflexivity.
  - reflexivity.
Defined.
